(** * Package manifest reconciliation ([scripts/manifest.py])

    A shallow embedding of the reconciliation tool: the probe of the live
    system ([get_system_state]), the drift report ([status]), the merge of
    the system into the manifest ([pull]) and the convergence of the
    system towards the manifest ([apply], and [diff] as its dry run).

    Python [set[str]] values are finite sets of strings ([gset string]),
    manifest lists are [list string], and a Python [str] is the string of
    its UTF-8 bytes (on which bytewise lexicographic order is the order of
    code points that [sorted] uses). Printing, running a subprocess and
    writing the manifest file are recorded in a trace of events; an
    exception that is not caught ends the run with the trace so far.

    The environment of a run is a [World]: what each external command
    gives, the manifest documents on disk, the entries of the repository
    directory, the host name and the clock. A manifest document is taken
    to be well formed: it parses, and the recognised keys hold lists of
    strings. Under a [World] a command is either not found or exits, so
    the exceptions met are a program that is not found, a checked command
    that exits with a non-zero status, and a missing [meta] table on save.

    [subprocess.run] can raise more than that ([PermissionError],
    [UnicodeDecodeError], ...), and [str.strip] and [str.lower] follow
    Unicode. Module [Probe] embeds [get_system_state] a second time over
    an environment where a command, and the reading of the repository
    directory, may raise any exception, and where the two string methods
    are arbitrary functions; over a [World] the two embeddings agree. *)

From Stdlib Require Import Strings.String Strings.Ascii ZArith.
From stdpp Require Import base option list sorting strings gmap pretty.

#[local] Set Warnings "-clear-no-such-hyp".

(** ** Python string methods used by the tool *)

Module Str.

Definition NL : ascii := "010"%char.

(** [str.isspace] on one character; the command output that is stripped
    is taken to be ASCII text. *)
Definition isspace (c : ascii) : bool :=
  match c with
  | "009" | "010" | "011" | "012" | "013"
  | "028" | "029" | "030" | "031" | " " => true
  | _ => false
  end%char.

Fixpoint lstrip (s : string) : string :=
  match s with
  | String c s' => if isspace c then lstrip s' else s
  | EmptyString => EmptyString
  end.

Fixpoint rstrip (s : string) : string :=
  match s with
  | EmptyString => EmptyString
  | String c s' =>
      match rstrip s' with
      | EmptyString => if isspace c then EmptyString else String c EmptyString
      | r => String c r
      end
  end.

(** [s.strip()] *)
Definition strip (s : string) : string := rstrip (lstrip s).

(** [s.split("\n")]: the empty string gives one empty field. *)
Fixpoint split_lines (s : string) : list string :=
  match s with
  | EmptyString => [EmptyString]
  | String c s' =>
      if Ascii.eqb c NL then EmptyString :: split_lines s'
      else match split_lines s' with
           | h :: t => String c h :: t
           | [] => [String c EmptyString]
           end
  end.

(** [s.lower()] on ASCII text: the letters [A] to [Z] are folded, every
    other byte is kept. *)
Definition lower_char (c : ascii) : ascii :=
  let n := nat_of_ascii c in
  if (65 <=? n)%nat && (n <=? 90)%nat then ascii_of_nat (n + 32) else c.

Fixpoint lower (s : string) : string :=
  match s with
  | EmptyString => EmptyString
  | String c s' => String (lower_char c) (lower s')
  end.

(** [s.startswith(p)] *)
Definition startswith (s p : string) : bool := String.prefix p s.

(** [s.endswith(p)] *)
Definition endswith (s p : string) : bool :=
  String.prefix (String.rev p) (String.rev s).

(** [s.replace(old, new)] for a non-empty [old]: occurrences are replaced
    from the left and do not overlap. [skip] counts the characters of
    an occurrence that was just replaced and are still to be dropped. *)
Fixpoint replace_from (old new : string) (skip : nat) (s : string) : string :=
  match s with
  | EmptyString => EmptyString
  | String c s' =>
      match skip with
      | S k => replace_from old new k s'
      | O =>
          if String.prefix old s
          then new +:+ replace_from old new (String.length old - 1) s'
          else String c (replace_from old new 0 s')
      end
  end.

Definition replace (s old new : string) : string := replace_from old new 0 s.

(** [s[:len(s) - n]] for [n <= len(s)] *)
Definition drop_last (n : nat) (s : string) : string :=
  String.substring 0 (String.length s - n) s.

End Str.

(** ** Sets of identifiers and [sorted] *)

Abbreviation idset := (gset string).

(** [set(l)] *)
Definition set_of (l : list string) : idset := list_to_set l.

(** [sorted(X)] for a set of strings. *)
Definition sorted (X : idset) : list string := merge_sort String.le (elements X).

(** Truth value of a set: [if X:] holds when [X] is not empty. *)
Definition truthy (X : idset) : bool := bool_decide (X ≠ ∅).

(** ** The observed system *)

(** [SystemState]: one set of identifiers per ecosystem. *)
Record SystemState := mkSystemState {
  packages : idset;
  groups : idset;
  flatpaks : idset;
  copr_repos : idset;
}.

Definition empty_state : SystemState := mkSystemState ∅ ∅ ∅ ∅.

Definition set_packages (X : idset) (st : SystemState) : SystemState :=
  mkSystemState X (groups st) (flatpaks st) (copr_repos st).
Definition set_groups (X : idset) (st : SystemState) : SystemState :=
  mkSystemState (packages st) X (flatpaks st) (copr_repos st).
Definition set_flatpaks (X : idset) (st : SystemState) : SystemState :=
  mkSystemState (packages st) (groups st) X (copr_repos st).
Definition set_copr_repos (X : idset) (st : SystemState) : SystemState :=
  mkSystemState (packages st) (groups st) (flatpaks st) X.

(** ** The manifest document

    The recognised tables and keys of a host's TOML document. A table or
    a key may be absent ([None]); the code reads every list through
    [.get(key, default)]. *)

Record PackagesTable := mkPackagesTable {
  system : option (list string);
  optional : option (list string);
  pkg_groups : option (list string);
}.

Record FlatpakTable := mkFlatpakTable {
  flatpak_packages : option (list string);
}.

Record CoprTable := mkCoprTable {
  repos : option (list string);
}.

Record ExcludedTable := mkExcludedTable {
  excluded_packages : option (list string);
}.

Record Manifest := mkManifest {
  tbl_meta : option (gmap string string);
  tbl_packages : option PackagesTable;
  tbl_flatpak : option FlatpakTable;
  tbl_copr : option CoprTable;
  tbl_excluded : option ExcludedTable;
}.

(** [manifest.get("packages", {}).get("system", [])] and its siblings. *)
Definition get_system (m : Manifest) : list string :=
  default [] (tbl_packages m ≫= system).
Definition get_optional (m : Manifest) : list string :=
  default [] (tbl_packages m ≫= optional).
Definition get_groups (m : Manifest) : list string :=
  default [] (tbl_packages m ≫= pkg_groups).
Definition get_flatpak_packages (m : Manifest) : list string :=
  default [] (tbl_flatpak m ≫= flatpak_packages).
Definition get_excluded_packages (m : Manifest) : list string :=
  default [] (tbl_excluded m ≫= excluded_packages).

(** ** Effects: a trace of events and uncaught exceptions *)

Inductive event :=
  | Stdout (text : string)                        (* print(text) *)
  | Stderr (text : string)                        (* print(text, file=sys.stderr) *)
  | Run (cmd : list string)                       (* subprocess.run(cmd, ...) *)
  | WriteToml (path : string) (doc : Manifest).   (* tomli_w.dump(doc, f) *)

Inductive exn :=
  | CalledProcessError (returncode : Z) (cmd : list string)
  | FileNotFoundError (cmd : list string)
  | KeyError (key : string)
  (* any other exception, by the name of its class: PermissionError,
     UnicodeDecodeError, ... *)
  | OtherError (name : string).

Record Eff (A : Type) := mkEff {
  trace : list event;
  result : exn + A;
}.
Arguments mkEff {A} _ _.
Arguments trace {A} _.
Arguments result {A} _.

Definition eff_ret {A} (a : A) : Eff A := mkEff [] (inr a).

Definition eff_bind {A B} (f : A → Eff B) (m : Eff A) : Eff B :=
  match result m with
  | inl e => mkEff (trace m) (inl e)
  | inr a => mkEff (trace m ++ trace (f a)) (result (f a))
  end.

#[global] Instance Eff_ret : MRet Eff := @eff_ret.
#[global] Instance Eff_bind : MBind Eff := @eff_bind.

Definition emit (e : event) : Eff unit := mkEff [e] (inr tt).
Definition raise {A} (e : exn) : Eff A := mkEff [] (inl e).

(** [try: body  except <handled>: handler] *)
Definition try_except {A} (body : Eff A) (handled : exn → bool)
    (handler : Eff A) : Eff A :=
  match result body with
  | inl e =>
      if handled e then mkEff (trace body ++ trace handler) (result handler)
      else body
  | inr _ => body
  end.

(** [if c: body] with nothing to do otherwise. *)
Definition when (c : bool) (body : Eff unit) : Eff unit :=
  if c then body else mret tt.

(** [for x in xs: body(x)] *)
Fixpoint for_each {A} (xs : list A) (body : A → Eff unit) : Eff unit :=
  match xs with
  | [] => mret tt
  | x :: xs' => body x ;; for_each xs' body
  end.

Definition print (text : string) : Eff unit := emit (Stdout text).
Definition eprint (text : string) : Eff unit := emit (Stderr text).

(** The commands that were run, the lines printed and the diagnostics
    written to standard error, in order. *)
Definition runs (t : list event) : list (list string) :=
  omap (λ e, match e with Run cmd => Some cmd | _ => None end) t.
Definition printed (t : list event) : list string :=
  omap (λ e, match e with Stdout s => Some s | _ => None end) t.
Definition diagnostics (t : list event) : list string :=
  omap (λ e, match e with Stderr s => Some s | _ => None end) t.

(** ** The environment of one invocation *)

(** What running a command gives: the program is not there, or it exits
    with a status and the text it wrote to standard output. *)
Inductive outcome :=
  | NotFound
  | Exited (returncode : Z) (stdout : string).

Record CompletedProcess := mkCompletedProcess {
  cp_returncode : Z;
  cp_stdout : string;
}.

(** Within one invocation no command is run twice, so what a command
    gives is a function of the command. *)
Record World := mkWorld {
  (** [socket.gethostname()] *)
  gethostname : string;
  exec : list string → outcome;
  (** the parsed [<hostname>.toml] documents under [MANIFESTS_DIR] *)
  manifest_files : gmap string Manifest;
  (** the entries of [/etc/yum.repos.d], if that directory exists *)
  yum_repos_d : option (list string);
  (** [datetime.now(timezone.utc).isoformat()] *)
  utc_now : string;
  MANIFESTS_DIR : string;
}.

(** [subprocess.run(cmd, check=check)] *)
Definition subprocess_run (w : World) (cmd : list string) (check : bool)
    : Eff CompletedProcess :=
  emit (Run cmd) ;;
  match exec w cmd with
  | NotFound => raise (FileNotFoundError cmd)
  | Exited rc out =>
      if check && negb (rc =? 0)%Z then raise (CalledProcessError rc cmd)
      else mret (mkCompletedProcess rc out)
  end.

Definition run_cmd (w : World) (cmd : list string) (check : bool)
    : Eff CompletedProcess :=
  subprocess_run w cmd check.

Definition get_hostname (w : World) : string := gethostname w.

(** [MANIFESTS_DIR / f"{hostname}.toml"]: joining an absolute path to a
    directory gives the absolute path. *)
Definition manifest_path (w : World) (hostname : string) : string :=
  if Str.startswith hostname "/" then hostname +:+ ".toml"
  else MANIFESTS_DIR w +:+ "/" +:+ hostname +:+ ".toml".

Definition template (w : World) (hostname : string) : Manifest := {|
  tbl_meta := Some (<["hostname" := hostname]>
                   (<["updated" := utc_now w]>
                   (<["managed_by" := "dnf"]> ∅)));
  tbl_packages := Some (mkPackagesTable (Some []) (Some []) (Some []));
  tbl_flatpak := Some (mkFlatpakTable (Some []));
  tbl_copr := Some (mkCoprTable (Some []));
  tbl_excluded := Some (mkExcludedTable (Some []));
|}.

Definition load_manifest (w : World) (hostname : string) : Manifest :=
  match manifest_files w !! hostname with
  | None => template w hostname
  | Some doc => doc
  end.

Definition save_manifest (w : World) (hostname : string) (manifest : Manifest)
    : Eff unit :=
  match tbl_meta manifest with
  | None => raise (KeyError "meta")
  | Some meta =>
      let manifest := mkManifest (Some (<["updated" := utc_now w]> meta))
                        (tbl_packages manifest) (tbl_flatpak manifest)
                        (tbl_copr manifest) (tbl_excluded manifest) in
      let path := manifest_path w hostname in
      emit (WriteToml path manifest) ;;
      print ("Saved " +:+ path)
  end.

(** ** StateProbe: [get_system_state] *)

Definition DNF_USERINSTALLED : list string :=
  ["dnf"; "repoquery"; "--userinstalled"; "--qf"; "%{name}"].
Definition DNF_GROUPS : list string :=
  ["dnf"; "group"; "list"; "--installed"; "-q"].
Definition FLATPAK_LIST : list string :=
  ["flatpak"; "list"; "--app"; "--columns=application"].

(** [set(stdout.strip().split("\n")) - {""}] *)
Definition parse_ids (stdout : string) : idset :=
  set_of (Str.split_lines (Str.strip stdout)) ∖ {[ "" ]}.

(** One turn of the loop over the lines of the group listing. *)
Definition add_group_line (state : SystemState) (line : string) : SystemState :=
  let line := Str.strip line in
  if negb (String.eqb line "") && negb (Str.startswith line "Installed")
  then set_groups ({[ Str.replace (Str.lower line) " " "-" ]} ∪ groups state) state
  else state.

(** [glob("_copr*.repo")] on the name of a directory entry *)
Definition copr_glob (name : string) : bool :=
  Str.startswith name "_copr" && Str.endswith name ".repo".

(** [f.stem] of a name that ends in [.repo] *)
Definition stem (name : string) : string := Str.drop_last 5 name.

Definition add_copr_file (state : SystemState) (f : string) : SystemState :=
  let name := Str.replace (Str.replace (stem f) "_copr:" "") "_copr_" "" in
  set_copr_repos ({[ name ]} ∪ copr_repos state) state.

Definition is_FileNotFoundError (e : exn) : bool :=
  match e with FileNotFoundError _ => true | _ => false end.
Definition is_CalledProcessError (e : exn) : bool :=
  match e with CalledProcessError _ _ => true | _ => false end.

Definition get_system_state (w : World) : Eff SystemState :=
  let state := empty_state in
  (* DNF user-installed packages *)
  state ← try_except
    (result ← run_cmd w DNF_USERINSTALLED true;
     mret (set_packages (parse_ids (cp_stdout result)) state))
    (λ e, is_CalledProcessError e || is_FileNotFoundError e)
    (eprint "Warning: Could not query DNF packages" ;; mret state);
  (* DNF groups *)
  state ← try_except
    (result ← run_cmd w DNF_GROUPS false;
     mret (foldl add_group_line state
             (Str.split_lines (Str.strip (cp_stdout result)))))
    is_FileNotFoundError
    (mret state);
  (* Flatpaks *)
  state ← try_except
    (result ← run_cmd w FLATPAK_LIST false;
     mret (if (cp_returncode result =? 0)%Z
           then set_flatpaks (parse_ids (cp_stdout result)) state
           else state))
    is_FileNotFoundError
    (mret state);
  (* COPR repos *)
  mret (match yum_repos_d w with
        | Some entries => foldl add_copr_file state (filter (λ f, copr_glob f) entries)
        | None => state
        end).

(** ** StateProbe, with every way a query can end *)

(** [exec] above gives a command two ways to end. [subprocess.run] has
    more: it raises [PermissionError] for a program that may not be
    executed, [UnicodeDecodeError] for output that is not valid text, and
    so on; [str.strip] and [str.lower] follow Unicode, not ASCII; and
    reading a directory can raise as well. The probe is embedded here a
    second time over an environment that leaves all of this open: the
    two string methods are parameters, a command returns or raises any
    exception, and so does the listing of [/etc/yum.repos.d]. *)

Module Probe.

Inductive run_outcome :=
  | Returned (returncode : Z) (stdout : string)
  | Raised (e : exn).

Inductive dir_outcome :=
  | NoDirectory                         (* copr_dir.exists() is False *)
  | Listing (entries : list string)
  | DirRaised (e : exn).

Section probe.

(** [str.strip] and [str.lower] *)
Variables strip lower : string → string.
(** what [subprocess.run(cmd, capture_output=True, text=True)] does *)
Variable run : list string → run_outcome.
(** what looking into [/etc/yum.repos.d] does *)
Variable repos_dir : dir_outcome.

(** [subprocess.run(cmd, check=check)] *)
Definition subprocess_run (cmd : list string) (check : bool)
    : Eff CompletedProcess :=
  emit (Run cmd) ;;
  match run cmd with
  | Raised e => raise e
  | Returned rc out =>
      if check && negb (rc =? 0)%Z then raise (CalledProcessError rc cmd)
      else mret (mkCompletedProcess rc out)
  end.

Definition run_cmd (cmd : list string) (check : bool) : Eff CompletedProcess :=
  subprocess_run cmd check.

(** [set(stdout.strip().split("\n")) - {""}] *)
Definition parse_ids (stdout : string) : idset :=
  set_of (Str.split_lines (strip stdout)) ∖ {[ "" ]}.

(** One turn of the loop over the lines of the group listing. *)
Definition add_group_line (state : SystemState) (line : string) : SystemState :=
  let line := strip line in
  if negb (String.eqb line "") && negb (Str.startswith line "Installed")
  then set_groups ({[ Str.replace (lower line) " " "-" ]} ∪ groups state) state
  else state.

(** The four blocks of [get_system_state], each on the state the blocks
    before it have filled. *)

(* DNF user-installed packages *)
Definition probe_packages (state : SystemState) : Eff SystemState :=
  try_except
    (result ← run_cmd DNF_USERINSTALLED true;
     mret (set_packages (parse_ids (cp_stdout result)) state))
    (λ e, is_CalledProcessError e || is_FileNotFoundError e)
    (eprint "Warning: Could not query DNF packages" ;; mret state).

(* DNF groups *)
Definition probe_groups (state : SystemState) : Eff SystemState :=
  try_except
    (result ← run_cmd DNF_GROUPS false;
     mret (foldl add_group_line state
             (Str.split_lines (strip (cp_stdout result)))))
    is_FileNotFoundError
    (mret state).

(* Flatpaks *)
Definition probe_flatpaks (state : SystemState) : Eff SystemState :=
  try_except
    (result ← run_cmd FLATPAK_LIST false;
     mret (if (cp_returncode result =? 0)%Z
           then set_flatpaks (parse_ids (cp_stdout result)) state
           else state))
    is_FileNotFoundError
    (mret state).

(* COPR repos *)
Definition probe_copr (state : SystemState) : Eff SystemState :=
  match repos_dir with
  | NoDirectory => mret state
  | Listing entries =>
      mret (foldl add_copr_file state (filter (λ f, copr_glob f) entries))
  | DirRaised e => raise e
  end.

Definition get_system_state : Eff SystemState :=
  let state := empty_state in
  state ← probe_packages state;
  state ← probe_groups state;
  state ← probe_flatpaks state;
  probe_copr state.


End probe.

(** The environment of [World] as one of these. *)
Definition of_exec (exec : list string → outcome) (cmd : list string)
    : run_outcome :=
  match exec cmd with
  | NotFound => Raised (FileNotFoundError cmd)
  | Exited rc out => Returned rc out
  end.

Definition of_yum_repos_d (d : option (list string)) : dir_outcome :=
  match d with
  | Some entries => Listing entries
  | None => NoDirectory
  end.

(** Example environments: the flatpak program may not be executed; the
    group listing is not valid UTF-8; the repository directory may not
    be read. In each of them every other query succeeds. *)
Definition flatpak_not_executable (cmd : list string) : run_outcome :=
  if decide (cmd = FLATPAK_LIST) then Raised (OtherError "PermissionError")
  else Returned 0 "git".

Definition groups_not_utf8 (cmd : list string) : run_outcome :=
  if decide (cmd = DNF_GROUPS) then Raised (OtherError "UnicodeDecodeError")
  else Returned 0 "git".

Definition all_return (cmd : list string) : run_outcome := Returned 0 "git".

Definition repos_unreadable : dir_outcome :=
  DirRaised (OtherError "PermissionError").

End Probe.

(** ** ReconciliationEngine *)

(** *** [status] *)

Definition status_declared_pkgs (manifest : Manifest) : idset :=
  set_of (get_system manifest) ∪ set_of (get_optional manifest).
Definition status_excluded (manifest : Manifest) : idset :=
  set_of (get_excluded_packages manifest).
Definition status_missing (manifest : Manifest) (state : SystemState) : idset :=
  status_declared_pkgs manifest ∖ packages state.
Definition status_extra (manifest : Manifest) (state : SystemState) : idset :=
  packages state ∖ status_declared_pkgs manifest ∖ status_excluded manifest.
Definition status_declared_flatpaks (manifest : Manifest) : idset :=
  set_of (get_flatpak_packages manifest).
Definition status_missing_flatpaks (manifest : Manifest) (state : SystemState) : idset :=
  status_declared_flatpaks manifest ∖ flatpaks state.
Definition status_extra_flatpaks (manifest : Manifest) (state : SystemState) : idset :=
  flatpaks state ∖ status_declared_flatpaks manifest.

(** The body of [status] once the manifest is loaded and the system
    probed; the value is the exit code. *)
Definition status_on (hostname : string) (manifest : Manifest) (state : SystemState)
    : Eff Z :=
  let declared_pkgs := status_declared_pkgs manifest in
  let missing := status_missing manifest state in
  let extra := status_extra manifest state in
  print ("Host: " +:+ hostname) ;;
  print ("Manifest packages: " +:+ pretty (size declared_pkgs)) ;;
  print ("System packages: " +:+ pretty (size (packages state))) ;;
  print "" ;;
  when (truthy missing)
    (print ("❌ Missing from system (" +:+ pretty (size missing) +:+ "):") ;;
     for_each (sorted missing) (λ p, print ("  - " +:+ p)) ;;
     print "") ;;
  when (truthy extra)
    (print ("➕ Extra on system, not in manifest (" +:+ pretty (size extra) +:+ "):") ;;
     for_each (take 30 (sorted extra)) (λ p, print ("  + " +:+ p)) ;;
     when (30 <? size extra)%nat
       (print ("  ... and " +:+ pretty (size extra - 30)%nat +:+ " more")) ;;
     print "") ;;
  (* Flatpaks *)
  let missing_flatpaks := status_missing_flatpaks manifest state in
  let extra_flatpaks := status_extra_flatpaks manifest state in
  when (truthy missing_flatpaks)
    (print ("❌ Missing flatpaks (" +:+ pretty (size missing_flatpaks) +:+ "):") ;;
     for_each (sorted missing_flatpaks) (λ p, print ("  - " +:+ p)) ;;
     print "") ;;
  when (truthy extra_flatpaks)
    (print ("➕ Extra flatpaks (" +:+ pretty (size extra_flatpaks) +:+ "):") ;;
     for_each (sorted extra_flatpaks) (λ p, print ("  + " +:+ p)) ;;
     print "") ;;
  if negb (truthy missing) && negb (truthy extra) && negb (truthy missing_flatpaks)
  then print "✓ System matches manifest" ;; mret 0%Z
  else mret (if truthy missing || truthy missing_flatpaks then 1%Z else 0%Z).

Definition status (w : World) (hostname : string) : Eff Z :=
  let manifest := load_manifest w hostname in
  state ← get_system_state w;
  status_on hostname manifest state.

(** *** [pull] *)

Definition pull_new_packages (manifest : Manifest) (state : SystemState) : idset :=
  let current_system := set_of (get_system manifest) in
  let current_optional := set_of (get_optional manifest) in
  let excluded := set_of (get_excluded_packages manifest) in
  let all_declared := current_system ∪ current_optional in
  packages state ∖ all_declared ∖ excluded.

Definition pull_new_flatpaks (manifest : Manifest) (state : SystemState) : idset :=
  let current_flatpaks := set_of (get_flatpak_packages manifest) in
  flatpaks state ∖ current_flatpaks.

(** [manifest.setdefault("packages", {}); manifest["packages"]["optional"] = l] *)
Definition set_optional (l : list string) (manifest : Manifest) : Manifest :=
  let tbl := default (mkPackagesTable None None None) (tbl_packages manifest) in
  mkManifest (tbl_meta manifest)
    (Some (mkPackagesTable (system tbl) (Some l) (pkg_groups tbl)))
    (tbl_flatpak manifest) (tbl_copr manifest) (tbl_excluded manifest).

(** [manifest.setdefault("flatpak", {}); manifest["flatpak"]["packages"] = l] *)
Definition set_flatpak_packages (l : list string) (manifest : Manifest) : Manifest :=
  mkManifest (tbl_meta manifest) (tbl_packages manifest)
    (Some (mkFlatpakTable (Some l)))
    (tbl_copr manifest) (tbl_excluded manifest).

(** The body of [pull] between the probe and [save_manifest]: the value
    is the manifest that is handed to [save_manifest]. *)
Definition pull_on (manifest : Manifest) (state : SystemState) : Eff Manifest :=
  let current_optional := set_of (get_optional manifest) in
  let new_packages := pull_new_packages manifest state in
  manifest ←
    (if truthy new_packages then
       print ("Adding " +:+ pretty (size new_packages) +:+ " new packages to optional:") ;;
       for_each (take 15 (sorted new_packages)) (λ p, print ("  + " +:+ p)) ;;
       when (15 <? size new_packages)%nat
         (print ("  ... and " +:+ pretty (size new_packages - 15)%nat +:+ " more")) ;;
       mret (set_optional (sorted (current_optional ∪ new_packages)) manifest)
     else mret manifest);
  (* Update flatpaks *)
  let current_flatpaks := set_of (get_flatpak_packages manifest) in
  let new_flatpaks := pull_new_flatpaks manifest state in
  if truthy new_flatpaks then
    print ("Adding " +:+ pretty (size new_flatpaks) +:+ " new flatpaks:") ;;
    for_each (sorted new_flatpaks) (λ p, print ("  + " +:+ p)) ;;
    mret (set_flatpak_packages (sorted (current_flatpaks ∪ new_flatpaks)) manifest)
  else mret manifest.

Definition pull (w : World) (hostname : string) : Eff unit :=
  let manifest := load_manifest w hostname in
  state ← get_system_state w;
  manifest ← pull_on manifest state;
  save_manifest w hostname manifest.

(** *** [apply], and [diff] as its dry run *)

Definition apply_missing (manifest : Manifest) (state : SystemState) : idset :=
  let declared_pkgs := set_of (get_system manifest) in
  declared_pkgs ∖ packages state.

Definition apply_missing_flatpaks (manifest : Manifest) (state : SystemState) : idset :=
  let declared_flatpaks := set_of (get_flatpak_packages manifest) in
  declared_flatpaks ∖ flatpaks state.

Definition NEWLINE : string := String Str.NL EmptyString.

(** The body of [apply] once the manifest is loaded and the system probed.
    The declared groups are read and not used. *)
Definition apply_on (w : World) (manifest : Manifest) (state : SystemState)
    (dry_run : bool) : Eff unit :=
  let missing := apply_missing manifest state in
  let declared_groups := set_of (get_groups manifest) in
  let missing_flatpaks := apply_missing_flatpaks manifest state in
  if negb (truthy missing) && negb (truthy missing_flatpaks) then
    print "✓ Nothing to install"
  else
    when (truthy missing)
      (print ("Installing " +:+ pretty (size missing) +:+ " DNF packages:") ;;
       for_each (sorted missing) (λ p, print ("  " +:+ p)) ;;
       when (negb dry_run)
         (subprocess_run w (["sudo"; "dnf"; "install"; "-y"] ++ sorted missing) true ;;
          mret tt)) ;;
    when (truthy missing_flatpaks)
      (print (NEWLINE +:+ "Installing " +:+ pretty (size missing_flatpaks) +:+ " Flatpaks:") ;;
       for_each (sorted missing_flatpaks) (λ p, print ("  " +:+ p)) ;;
       when (negb dry_run)
         (for_each (sorted missing_flatpaks) (λ flatpak,
            subprocess_run w ["flatpak"; "install"; "-y"; flatpak] true ;;
            mret tt))) ;;
    when dry_run
      (print (NEWLINE +:+ "(dry run, no changes made)")).

Definition apply (w : World) (hostname : string) (dry_run : bool) : Eff unit :=
  let manifest := load_manifest w hostname in
  state ← get_system_state w;
  apply_on w manifest state dry_run.

(** *** [main]: the command line ([cmd], and [--host] if given), with the
    process exit code as value *)

Inductive command := CmdStatus | CmdPull | CmdApply | CmdDiff.

Definition main (w : World) (cmd : command) (host_arg : option string) : Eff Z :=
  (* --host, default: the current host *)
  let host := default (get_hostname w) host_arg in
  match cmd with
  | CmdStatus => status w host
  | CmdPull => pull w host ;; mret 0%Z
  | CmdApply => apply w host false ;; mret 0%Z
  | CmdDiff => apply w host true ;; mret 0%Z
  end.

(** ** Predicates on traces and worlds, and example inputs *)

(** A command succeeds when its program is found and exits with 0. *)
Definition succeeds (w : World) (cmd : list string) : Prop :=
  ∃ out, exec w cmd = Exited 0 out.

Definition is_Stdout (e : event) : Prop :=
  match e with Stdout _ => True | _ => False end.

Definition all_succeed : World :=
  mkWorld "localhost" (λ _, Exited 0 "") ∅ None "2026-01-01T00:00:00+00:00" "/manifests".

Definition workstation : Manifest := {|
  tbl_meta := Some ∅;
  tbl_packages := Some (mkPackagesTable (Some ["vim"; "git"]) (Some ["htop"]) (Some ["c-development"]));
  tbl_flatpak := Some (mkFlatpakTable (Some ["org.b.B"; "org.a.A"]));
  tbl_copr := None;
  tbl_excluded := None;
|}.

Definition only_git : SystemState := mkSystemState {[ "git" ]} ∅ ∅ ∅.

Definition after_install : SystemState :=
  mkSystemState {[ "git"; "vim" ]} ∅ {[ "org.a.A"; "org.b.B" ]} ∅.

(** A manifest that excludes an identifier, and a system on which that
    identifier is installed as a flatpak. *)
Definition excluding_manifest : Manifest := {|
  tbl_meta := Some ∅;
  tbl_packages := Some (mkPackagesTable (Some []) (Some []) (Some []));
  tbl_flatpak := Some (mkFlatpakTable (Some []));
  tbl_copr := None;
  tbl_excluded := Some (mkExcludedTable (Some ["org.example.App"]));
|}.

Definition excluded_flatpak_state : SystemState :=
  mkSystemState ∅ ∅ {[ "org.example.App" ]} ∅.



(** A manifest with the given system, optional and excluded packages and
    nothing else declared. *)
Definition manifest_with (sys opt excl : list string) : Manifest := {|
  tbl_meta := Some (<["hostname" := "localhost"]> ∅);
  tbl_packages := Some (mkPackagesTable (Some sys) (Some opt) (Some []));
  tbl_flatpak := Some (mkFlatpakTable (Some []));
  tbl_copr := Some (mkCoprTable (Some []));
  tbl_excluded := Some (mkExcludedTable (Some excl));
|}.

(** A host whose queries answer with a package list, a group list and a
    flatpak list, and that has two COPR repository files. *)
Definition fedora_host : World :=
  mkWorld "fedora"
    (λ cmd,
       if decide (cmd = DNF_USERINSTALLED)
       then Exited 0 ("git" +:+ NEWLINE +:+ "htop" +:+ NEWLINE)
       else if decide (cmd = DNF_GROUPS)
       then Exited 0 ("Installed Groups:" +:+ NEWLINE
                      +:+ "   Development Tools" +:+ NEWLINE)
       else if decide (cmd = FLATPAK_LIST)
       then Exited 0 ("org.mozilla.firefox" +:+ NEWLINE)
       else Exited 0 "")
    ∅
    (Some ["_copr:copr.fedorainfracloud.org:atim:starship.repo";
           "fedora.repo"; "_copr_user-tool.repo"])
    "2026-01-01T00:00:00+00:00" "/manifests".

(** ** Predicates on identifiers *)

(** Every character of a string passes a test. *)
Fixpoint all_chars (P : ascii → bool) (s : string) : bool :=
  match s with
  | EmptyString => true
  | String c s' => P c && all_chars P s'
  end.

(** An upper-case ASCII letter. *)
Definition is_upper (c : ascii) : bool :=
  (65 <=? nat_of_ascii c)%nat && (nat_of_ascii c <=? 90)%nat.

(** Neither a space nor an upper-case ASCII letter. *)
Definition group_char (c : ascii) : bool :=
  negb (Ascii.eqb c " ") && negb (is_upper c).

(** Not a line break. *)
Definition not_newline (c : ascii) : bool := negb (Ascii.eqb c Str.NL).

(** The documents written to disk, with their paths, in order. *)
Definition writes (t : list event) : list (string * Manifest) :=
  omap (λ e, match e with WriteToml path doc => Some (path, doc) | _ => None end) t.

Definition is_Stdout_or_Run (e : event) : Prop :=
  match e with Stdout _ | Run _ => True | _ => False end.

(** A host on which no installer can be run: [dnf] exits with status 1
    and [flatpak] is not installed. *)
Definition broken_installers : World :=
  mkWorld "localhost"
    (λ cmd, match cmd with
            | "flatpak" :: _ => NotFound
            | _ => Exited 1 ""
            end)
    ∅ None "2026-01-01T00:00:00+00:00" "/manifests".

(** A host on which every command succeeds except the installation of one
    flatpak. *)
Definition one_flatpak_fails : World :=
  mkWorld "localhost"
    (λ cmd, if decide (cmd = ["flatpak"; "install"; "-y"; "org.a.A"])
            then Exited 1 "" else Exited 0 "")
    ∅ None "2026-01-01T00:00:00+00:00" "/manifests".


(** A system with forty user-installed packages, [p10] to [p49]. *)
Definition forty_packages : SystemState :=
  mkSystemState
    (set_of ((λ n, "p" +:+ pretty n) <$> seq 10 40)) ∅ ∅ ∅.

(** [old in s]: the string [old] occurs in [s]. *)
Fixpoint contains (old s : string) : bool :=
  String.prefix old s ||
  match s with
  | EmptyString => false
  | String _ s' => contains old s'
  end.

(** The lines of a report that list an extra identifier: [  + name]. *)
Definition extra_lines (t : list event) : list string :=
  filter (λ s, String.prefix "  + " s) (printed t).

(** * Properties *)

(** ** The effect monad *)

Section eff_lemmas.
Context {A B : Type}.
Implicit Types (m : Eff A) (f : A → Eff B).

Lemma result_bind_inr m f a :
  result m = inr a → result (m ≫= f) = result (f a).
Proof. intros H. unfold mbind, Eff_bind, eff_bind. by rewrite H. Qed.

Lemma trace_bind_inr m f a :
  result m = inr a → trace (m ≫= f) = trace m ++ trace (f a).
Proof. intros H. unfold mbind, Eff_bind, eff_bind. by rewrite H. Qed.

Lemma result_bind_inl m f e :
  result m = inl e → result (m ≫= f) = inl e.
Proof. intros H. unfold mbind, Eff_bind, eff_bind. by rewrite H. Qed.

Lemma trace_bind_inl m f e :
  result m = inl e → trace (m ≫= f) = trace m.
Proof. intros H. unfold mbind, Eff_bind, eff_bind. by rewrite H. Qed.
End eff_lemmas.

Lemma for_each_cons {A} (x : A) (xs : list A) (body : A → Eff unit) :
  for_each (x :: xs) body = (body x ;; for_each xs body).
Proof. reflexivity. Qed.

Lemma for_each_print (f : string → string) (xs : list string) :
  for_each xs (λ p, print (f p)) = mkEff (Stdout ∘ f <$> xs) (inr tt).
Proof.
  induction xs as [|x xs IH]; [done|].
  simpl for_each. rewrite IH. reflexivity.
Qed.

(** ** [sorted] lists a set: every element once, in order *)

Lemma sorted_Permutation (X : idset) : sorted X ≡ₚ elements X.
Proof. apply merge_sort_Permutation. Qed.

Lemma elem_of_sorted (X : idset) (x : string) : x ∈ sorted X ↔ x ∈ X.
Proof. by rewrite sorted_Permutation, elem_of_elements. Qed.

Lemma NoDup_sorted (X : idset) : NoDup (sorted X).
Proof. rewrite sorted_Permutation. apply NoDup_elements. Qed.

Lemma Sorted_sorted (X : idset) : Sorted String.le (sorted X).
Proof. apply (Sorted_merge_sort String.le). Qed.

Lemma set_of_sorted (X : idset) : set_of (sorted X) = X.
Proof. apply set_eq. intros x. unfold set_of. by rewrite elem_of_list_to_set, elem_of_sorted. Qed.

Lemma sorted_empty : sorted ∅ = [].
Proof. reflexivity. Qed.

Lemma sorted_nil_iff (X : idset) : sorted X = [] ↔ X = ∅.
Proof.
  split; [|intros ->; apply sorted_empty].
  intros H. apply set_eq. intros x. rewrite <- elem_of_sorted, H. set_solver.
Qed.

Lemma elem_of_set_of (l : list string) (x : string) : x ∈ set_of l ↔ x ∈ l.
Proof. unfold set_of. apply elem_of_list_to_set. Qed.

Lemma truthy_true (X : idset) : truthy X = true ↔ X ≠ ∅.
Proof. unfold truthy. apply bool_decide_eq_true. Qed.

Lemma truthy_false (X : idset) : truthy X = false ↔ X = ∅.
Proof.
  unfold truthy. rewrite bool_decide_eq_false. split; [|naive_solver].
  intros H. by destruct (decide (X = ∅)).
Qed.

(** ** [status]: the report and the exit code *)

Lemma status_on_trace (hostname : string) (M : Manifest) (S : SystemState) :
  trace (status_on hostname M S) =
    [Stdout ("Host: " +:+ hostname);
     Stdout ("Manifest packages: " +:+ pretty (size (status_declared_pkgs M)));
     Stdout ("System packages: " +:+ pretty (size (packages S)));
     Stdout ""] ++
    (if truthy (status_missing M S) then
       Stdout ("❌ Missing from system (" +:+ pretty (size (status_missing M S)) +:+ "):")
       :: (Stdout ∘ (λ p, "  - " +:+ p) <$> sorted (status_missing M S)) ++ [Stdout ""]
     else []) ++
    (if truthy (status_extra M S) then
       Stdout ("➕ Extra on system, not in manifest (" +:+ pretty (size (status_extra M S)) +:+ "):")
       :: (Stdout ∘ (λ p, "  + " +:+ p) <$> take 30 (sorted (status_extra M S))) ++
          (if (30 <? size (status_extra M S))%nat
           then [Stdout ("  ... and " +:+ pretty (size (status_extra M S) - 30)%nat +:+ " more")]
           else []) ++ [Stdout ""]
     else []) ++
    (if truthy (status_missing_flatpaks M S) then
       Stdout ("❌ Missing flatpaks (" +:+ pretty (size (status_missing_flatpaks M S)) +:+ "):")
       :: (Stdout ∘ (λ p, "  - " +:+ p) <$> sorted (status_missing_flatpaks M S)) ++ [Stdout ""]
     else []) ++
    (if truthy (status_extra_flatpaks M S) then
       Stdout ("➕ Extra flatpaks (" +:+ pretty (size (status_extra_flatpaks M S)) +:+ "):")
       :: (Stdout ∘ (λ p, "  + " +:+ p) <$> sorted (status_extra_flatpaks M S)) ++ [Stdout ""]
     else []) ++
    (if negb (truthy (status_missing M S)) && negb (truthy (status_extra M S))
        && negb (truthy (status_missing_flatpaks M S))
     then [Stdout "✓ System matches manifest"] else []).
Proof.
  unfold status_on. rewrite !for_each_print.
  destruct (truthy (status_missing M S)), (truthy (status_extra M S)),
    (truthy (status_missing_flatpaks M S)), (truthy (status_extra_flatpaks M S)),
    (30 <? size (status_extra M S))%nat; cbn; rewrite ?app_nil_r, <- ?app_assoc;
    reflexivity.
Qed.

Lemma status_on_result (hostname : string) (M : Manifest) (S : SystemState) :
  result (status_on hostname M S) =
    inr (if truthy (status_missing M S) || truthy (status_missing_flatpaks M S)
         then 1%Z else 0%Z).
Proof.
  unfold status_on. rewrite !for_each_print.
  destruct (truthy (status_missing M S)), (truthy (status_extra M S)),
    (truthy (status_missing_flatpaks M S)), (truthy (status_extra_flatpaks M S)),
    (30 <? size (status_extra M S))%nat; reflexivity.
Qed.

(** ** [get_system_state]: every probe is absorbed *)

Lemma add_group_line_fields (st : SystemState) (line : string) :
  packages (add_group_line st line) = packages st ∧
  flatpaks (add_group_line st line) = flatpaks st ∧
  copr_repos (add_group_line st line) = copr_repos st.
Proof. unfold add_group_line. by case_match. Qed.

Lemma foldl_add_group_line_fields (ls : list string) (st : SystemState) :
  packages (foldl add_group_line st ls) = packages st ∧
  flatpaks (foldl add_group_line st ls) = flatpaks st ∧
  copr_repos (foldl add_group_line st ls) = copr_repos st.
Proof.
  revert st. induction ls as [|l ls IH]; intros st; [done|].
  simpl. destruct (IH (add_group_line st l)) as (-> & -> & ->).
  apply add_group_line_fields.
Qed.

Lemma packages_group_lines ls st :
  packages (foldl add_group_line st ls) = packages st.
Proof. apply foldl_add_group_line_fields. Qed.
Lemma flatpaks_group_lines ls st :
  flatpaks (foldl add_group_line st ls) = flatpaks st.
Proof. apply foldl_add_group_line_fields. Qed.
Lemma copr_repos_group_lines ls st :
  copr_repos (foldl add_group_line st ls) = copr_repos st.
Proof. apply foldl_add_group_line_fields. Qed.

Lemma foldl_add_group_line_groups (ls : list string) (st st' : SystemState) :
  groups st = groups st' →
  groups (foldl add_group_line st ls) = groups (foldl add_group_line st' ls).
Proof.
  revert st st'. induction ls as [|l ls IH]; intros st st' H; [done|].
  simpl. apply IH. unfold add_group_line. case_match; simpl; by rewrite ?H.
Qed.

Lemma foldl_add_copr_file_fields (fs : list string) (st : SystemState) :
  packages (foldl add_copr_file st fs) = packages st ∧
  groups (foldl add_copr_file st fs) = groups st ∧
  flatpaks (foldl add_copr_file st fs) = flatpaks st.
Proof.
  revert st. induction fs as [|f fs IH]; intros st; [done|].
  simpl. by destruct (IH (add_copr_file st f)) as (-> & -> & ->).
Qed.

Lemma packages_copr_files fs st :
  packages (foldl add_copr_file st fs) = packages st.
Proof. apply foldl_add_copr_file_fields. Qed.
Lemma groups_copr_files fs st :
  groups (foldl add_copr_file st fs) = groups st.
Proof. apply foldl_add_copr_file_fields. Qed.
Lemma flatpaks_copr_files fs st :
  flatpaks (foldl add_copr_file st fs) = flatpaks st.
Proof. apply foldl_add_copr_file_fields. Qed.

Lemma foldl_add_copr_file_repos (fs : list string) (st st' : SystemState) :
  copr_repos st = copr_repos st' →
  copr_repos (foldl add_copr_file st fs) = copr_repos (foldl add_copr_file st' fs).
Proof.
  revert st st'. induction fs as [|f fs IH]; intros st st' H; [done|].
  simpl. apply IH. unfold add_copr_file. simpl. by rewrite H.
Qed.

Ltac probe_simpl :=
  repeat (progress (rewrite ?packages_group_lines, ?flatpaks_group_lines,
                      ?copr_repos_group_lines, ?packages_copr_files,
                      ?groups_copr_files, ?flatpaks_copr_files; cbn)).

(** The snapshot, ecosystem by ecosystem, in terms of what each query
    gave; over a [World] the probe never raises. *)
Lemma get_system_state_spec (w : World) :
  ∃ st : SystemState,
    result (get_system_state w) = inr st ∧
    trace (get_system_state w) =
      Run DNF_USERINSTALLED ::
      match exec w DNF_USERINSTALLED with
      | Exited 0 _ => []
      | _ => [Stderr "Warning: Could not query DNF packages"]
      end ++ [Run DNF_GROUPS; Run FLATPAK_LIST] ∧
    packages st =
      match exec w DNF_USERINSTALLED with
      | Exited 0 out => parse_ids out
      | _ => ∅
      end ∧
    groups st =
      match exec w DNF_GROUPS with
      | Exited _ out =>
          groups (foldl add_group_line empty_state
                    (Str.split_lines (Str.strip out)))
      | NotFound => ∅
      end ∧
    flatpaks st =
      match exec w FLATPAK_LIST with
      | Exited 0 out => parse_ids out
      | _ => ∅
      end ∧
    copr_repos st =
      match yum_repos_d w with
      | Some entries =>
          copr_repos (foldl add_copr_file empty_state (filter (λ f, copr_glob f) entries))
      | None => ∅
      end.
Proof.
  unfold get_system_state, run_cmd, subprocess_run.
  destruct (exec w DNF_USERINSTALLED) as [|rc1 o1]; [|destruct rc1 as [|rc1|rc1]];
  (destruct (exec w DNF_GROUPS) as [|rc2 o2]);
  (destruct (exec w FLATPAK_LIST) as [|rc3 o3]; [|destruct rc3 as [|rc3|rc3]]);
  (destruct (yum_repos_d w) as [entries|]); cbn;
  eexists; (split; [reflexivity|]); (split; [reflexivity|]);
  repeat split; probe_simpl;
  try (apply foldl_add_group_line_groups);
  try (apply foldl_add_copr_file_repos);
  probe_simpl; done.
Qed.

Lemma diagnostics_get_system_state (w : World) :
  diagnostics (trace (get_system_state w)) =
    match exec w DNF_USERINSTALLED with
    | Exited 0 _ => []
    | _ => ["Warning: Could not query DNF packages"]
    end.
Proof.
  destruct (get_system_state_spec w) as (st & _ & -> & _).
  by destruct (exec w DNF_USERINSTALLED) as [|[] ?].
Qed.


(** ** The probe over every way a query can end *)

Section general_probe.
Variables strip lower : string → string.
Variable run : list string → Probe.run_outcome.
Variable repos_dir : Probe.dir_outcome.







End general_probe.


(** The probe of [World] is the general one, over ASCII [strip] and
    [lower], commands that are not found or exit, and a directory that is
    there or not. *)
Lemma get_system_state_general (w : World) :
  get_system_state w =
    Probe.get_system_state Str.strip Str.lower
      (Probe.of_exec (exec w)) (Probe.of_yum_repos_d (yum_repos_d w)).
Proof.
  unfold Probe.get_system_state, Probe.probe_copr, Probe.probe_packages,
    Probe.probe_groups, Probe.probe_flatpaks, Probe.run_cmd,
    Probe.subprocess_run, Probe.of_exec, Probe.of_yum_repos_d,
    get_system_state, run_cmd, subprocess_run.
  destruct (exec w DNF_USERINSTALLED) as [|[] o1],
    (exec w DNF_GROUPS) as [|r2 o2],
    (exec w FLATPAK_LIST) as [|[] o3], (yum_repos_d w); reflexivity.
Qed.

(** Three exceptions that no [except] clause of the probe names end the
    snapshot: the flatpak program may not be executed, the group listing
    is not valid text, the repository directory may not be read. *)
Example probe_aborts :
  result (Probe.get_system_state Str.strip Str.lower
            Probe.flatpak_not_executable Probe.NoDirectory)
    = inl (OtherError "PermissionError") ∧
  result (Probe.get_system_state Str.strip Str.lower
            Probe.groups_not_utf8 Probe.NoDirectory)
    = inl (OtherError "UnicodeDecodeError") ∧
  result (Probe.get_system_state Str.strip Str.lower
            Probe.all_return Probe.repos_unreadable)
    = inl (OtherError "PermissionError").
Proof. split_and!; vm_compute; reflexivity. Qed.



(** ** Drift report of [status] *)

(** The lines of the report that start with a dash are the missing
    packages and the missing flatpaks; the lines that start with a plus
    are the first thirty extra packages and the extra flatpaks. *)
Lemma elem_of_lines (f : string → string) (xs : list string) (e : event) :
  e ∈ (Stdout ∘ f <$> xs) ↔ ∃ y, e = Stdout (f y) ∧ y ∈ xs.
Proof. apply list_elem_of_fmap. Qed.

Ltac line_cases H :=
  repeat first
    [ apply elem_of_nil in H; destruct H
    | apply elem_of_cons in H; destruct H as [H|H]; [try discriminate H|]
    | apply elem_of_app in H; destruct H as [H|H]
    | apply elem_of_lines in H; destruct H as (? & H & ?); try discriminate H
    | match type of H with
      | _ ∈ (if ?c then _ else _) => destruct c eqn:?
      end ].

Lemma status_report_missing_lines (hostname : string) (M : Manifest)
    (S : SystemState) (x : string) :
  Stdout ("  - " +:+ x) ∈ trace (status_on hostname M S) ↔
  x ∈ status_missing M S ∨ x ∈ status_missing_flatpaks M S.
Proof.
  rewrite status_on_trace. split.
  - intros H. line_cases H;
      injection H as H; apply (inj (String.app "")) in H; subst;
      [left|right]; by apply elem_of_sorted.
  - intros [Hx|Hx].
    + assert (truthy (status_missing M S) = true) as ->.
      { apply truthy_true. set_solver. }
      apply elem_of_app. right. apply elem_of_app. left.
      apply elem_of_cons. right. apply elem_of_app. left.
      apply elem_of_lines. exists x. by rewrite elem_of_sorted.
    + assert (truthy (status_missing_flatpaks M S) = true) as ->.
      { apply truthy_true. set_solver. }
      do 3 (apply elem_of_app; right). apply elem_of_app. left.
      apply elem_of_cons. right. apply elem_of_app. left.
      apply elem_of_lines. exists x. by rewrite elem_of_sorted.
Qed.

Lemma status_report_extra_lines (hostname : string) (M : Manifest)
    (S : SystemState) (x : string) :
  Stdout ("  + " +:+ x) ∈ trace (status_on hostname M S) ↔
  x ∈ take 30 (sorted (status_extra M S)) ∨ x ∈ status_extra_flatpaks M S.
Proof.
  rewrite status_on_trace. split.
  - intros H. line_cases H;
      injection H as H; apply (inj (String.app "")) in H; subst;
      [by left|right; by apply elem_of_sorted].
  - intros [Hx|Hx].
    + assert (truthy (status_extra M S) = true) as ->.
      { apply truthy_true. apply (subseteq_take 30) in Hx.
        apply elem_of_sorted in Hx. set_solver. }
      do 2 (apply elem_of_app; right). apply elem_of_app. left.
      apply elem_of_cons. right. apply elem_of_app. left.
      apply elem_of_lines. by exists x.
    + assert (truthy (status_extra_flatpaks M S) = true) as ->.
      { apply truthy_true. set_solver. }
      do 4 (apply elem_of_app; right). apply elem_of_app. left.
      apply elem_of_cons. right. apply elem_of_app. left.
      apply elem_of_lines. exists x. by rewrite elem_of_sorted.
Qed.

(** C1. In [status], the missing packages are the declared ones, system
    and optional together, that are not observed; the extra packages are
    the observed ones that are neither declared nor excluded. The report
    lists exactly the missing identifiers under a dash, and under a plus
    the extra ones (of the extra packages, the first thirty in sorted
    order). *)
Theorem status_drift_report (hostname : string) (M : Manifest) (S : SystemState) :
  status_missing M S
    = (set_of (get_system M) ∪ set_of (get_optional M)) ∖ packages S ∧
  status_extra M S
    = packages S ∖ (set_of (get_system M) ∪ set_of (get_optional M))
        ∖ set_of (get_excluded_packages M) ∧
  (∀ x, x ∈ status_missing M S ↔
        (x ∈ get_system M ∨ x ∈ get_optional M) ∧ x ∉ packages S) ∧
  (∀ x, x ∈ status_extra M S ↔
        x ∈ packages S ∧ (x ∉ get_system M) ∧ (x ∉ get_optional M) ∧
        (x ∉ get_excluded_packages M)) ∧
  (∀ x, Stdout ("  - " +:+ x) ∈ trace (status_on hostname M S) ↔
        x ∈ status_missing M S ∨ x ∈ status_missing_flatpaks M S) ∧
  (∀ x, Stdout ("  + " +:+ x) ∈ trace (status_on hostname M S) ↔
        x ∈ take 30 (sorted (status_extra M S)) ∨ x ∈ status_extra_flatpaks M S).
Proof.
  split_and!; try reflexivity.
  - intros x. unfold status_missing, status_declared_pkgs.
    rewrite elem_of_difference, elem_of_union, !elem_of_set_of. tauto.
  - intros x. unfold status_extra, status_declared_pkgs, status_excluded.
    rewrite !elem_of_difference, elem_of_union, !elem_of_set_of. tauto.
  - apply status_report_missing_lines.
  - apply status_report_extra_lines.
Qed.

(** C10. In [status], the extra flatpaks are the observed flatpaks that
    the manifest does not declare; the excluded packages play no part:
    replacing the [excluded] table leaves the set as it is, and every
    observed, undeclared flatpak is reported as extra, excluded or not. *)
Theorem status_extra_flatpaks_ignores_excluded
    (hostname : string) (M : Manifest) (S : SystemState)
    (excl : option ExcludedTable) :
  status_extra_flatpaks M S = flatpaks S ∖ set_of (get_flatpak_packages M) ∧
  status_extra_flatpaks
    (mkManifest (tbl_meta M) (tbl_packages M) (tbl_flatpak M) (tbl_copr M) excl) S
    = status_extra_flatpaks M S ∧
  (∀ x, x ∈ flatpaks S ∧ (x ∉ get_flatpak_packages M) ↔
        x ∈ status_extra_flatpaks M S) ∧
  (∀ x, x ∈ status_extra_flatpaks M S →
        Stdout ("  + " +:+ x) ∈ trace (status_on hostname M S)).
Proof.
  split_and!; try reflexivity.
  - intros x. unfold status_extra_flatpaks, status_declared_flatpaks.
    by rewrite elem_of_difference, elem_of_set_of.
  - intros x Hx. apply status_report_extra_lines. by right.
Qed.

(** C6. [status] exits with 1 exactly when a declared package or a
    declared flatpak is missing, and with 0 otherwise, whatever the extra
    sets are; the probe never makes it fail. *)
Theorem status_exit_code (w : World) (hostname : string) (M : Manifest)
    (S : SystemState) :
  result (status_on hostname M S)
    = inr (if bool_decide (status_missing M S = ∅ ∧ status_missing_flatpaks M S = ∅)
           then 0%Z else 1%Z) ∧
  ∃ st, result (get_system_state w) = inr st ∧
        result (main w CmdStatus (Some hostname)) = result (status w hostname) ∧
        result (status w hostname)
          = inr (if bool_decide (status_missing (load_manifest w hostname) st = ∅ ∧
                                 status_missing_flatpaks (load_manifest w hostname) st = ∅)
                 then 0%Z else 1%Z).
Proof.
  assert (∀ h M' S', result (status_on h M' S')
    = inr (if bool_decide (status_missing M' S' = ∅ ∧ status_missing_flatpaks M' S' = ∅)
           then 0%Z else 1%Z)) as Hcode.
  { intros h M' S'. rewrite status_on_result.
    destruct (truthy (status_missing M' S')) eqn:E1;
      destruct (truthy (status_missing_flatpaks M' S')) eqn:E2; simpl;
      first [apply truthy_true in E1 | apply truthy_false in E1];
      first [apply truthy_true in E2 | apply truthy_false in E2].
    - by rewrite bool_decide_eq_false_2 by tauto.
    - by rewrite bool_decide_eq_false_2 by tauto.
    - by rewrite bool_decide_eq_false_2 by tauto.
    - by rewrite bool_decide_eq_true_2. }
  split; [apply Hcode|].
  destruct (get_system_state_spec w) as (st & Hst & _).
  exists st. split_and!; [done|done|].
  unfold status. rewrite (result_bind_inr _ _ _ Hst). apply Hcode.
Qed.

(** ** [pull]: the merge of the system into the manifest *)

Lemma get_system_set_optional l M : get_system (set_optional l M) = get_system M.
Proof. unfold get_system, set_optional. by destruct (tbl_packages M). Qed.

Lemma get_optional_set_optional l M : get_optional (set_optional l M) = l.
Proof. reflexivity. Qed.

Lemma get_flatpak_packages_set_flatpak l M :
  get_flatpak_packages (set_flatpak_packages l M) = l.
Proof. reflexivity. Qed.

Lemma get_system_set_flatpak l M :
  get_system (set_flatpak_packages l M) = get_system M.
Proof. reflexivity. Qed.

Lemma get_optional_set_flatpak l M :
  get_optional (set_flatpak_packages l M) = get_optional M.
Proof. reflexivity. Qed.

Lemma get_flatpak_packages_set_optional l M :
  get_flatpak_packages (set_optional l M) = get_flatpak_packages M.
Proof. reflexivity. Qed.

(** The manifest that [pull] hands to [save_manifest]. *)
Lemma pull_on_result (M : Manifest) (S : SystemState) :
  result (pull_on M S) =
    inr (let M1 :=
           if truthy (pull_new_packages M S)
           then set_optional
                  (sorted (set_of (get_optional M) ∪ pull_new_packages M S)) M
           else M in
         if truthy (pull_new_flatpaks M S)
         then set_flatpak_packages
                (sorted (set_of (get_flatpak_packages M) ∪ pull_new_flatpaks M S)) M1
         else M1).
Proof.
  unfold pull_on. rewrite !for_each_print.
  destruct (truthy (pull_new_packages M S)),
    (15 <? size (pull_new_packages M S))%nat; cbn -[sorted for_each];
    rewrite ?for_each_print;
    change (pull_new_flatpaks (set_optional _ M) S) with (pull_new_flatpaks M S);
    destruct (truthy (pull_new_flatpaks M S)); reflexivity.
Qed.

Lemma Forall_printed_lines (f : string → string) (xs : list string) :
  Forall is_Stdout (Stdout ∘ f <$> xs).
Proof. apply Forall_fmap, Forall_forall. by intros. Qed.

(** [pull] prints and does nothing else before it saves. *)
Lemma pull_on_trace (M : Manifest) (S : SystemState) :
  Forall is_Stdout (trace (pull_on M S)).
Proof.
  unfold pull_on. rewrite !for_each_print.
  destruct (truthy (pull_new_packages M S)),
    (15 <? size (pull_new_packages M S))%nat; cbn -[sorted for_each];
    rewrite ?for_each_print;
    change (pull_new_flatpaks (set_optional _ M) S) with (pull_new_flatpaks M S);
    destruct (truthy (pull_new_flatpaks M S)); cbn -[sorted];
    repeat first [ apply Forall_nil_2 | apply Forall_cons_2; [exact I|]
                 | apply Forall_app_2 | apply Forall_printed_lines ].
Qed.

Lemma save_manifest_writes (w : World) (hostname path : string) (M doc : Manifest) :
  WriteToml path doc ∈ trace (save_manifest w hostname M) →
  path = manifest_path w hostname ∧
  tbl_packages doc = tbl_packages M ∧ tbl_flatpak doc = tbl_flatpak M ∧
  tbl_copr doc = tbl_copr M ∧ tbl_excluded doc = tbl_excluded M.
Proof.
  unfold save_manifest. destruct (tbl_meta M) as [meta|]; cbn.
  - rewrite !elem_of_cons. intros [[= -> ->]|[[=]|[]%elem_of_nil]]. done.
  - intros []%elem_of_nil.
Qed.

(** What [pull] writes is the manifest computed by [pull_on], with a new
    time stamp. *)
Lemma pull_writes (w : World) (hostname path : string) (doc : Manifest) :
  WriteToml path doc ∈ trace (pull w hostname) →
  ∃ st M', result (get_system_state w) = inr st ∧
           result (pull_on (load_manifest w hostname) st) = inr M' ∧
           tbl_packages doc = tbl_packages M' ∧ tbl_flatpak doc = tbl_flatpak M' ∧
           tbl_excluded doc = tbl_excluded M'.
Proof.
  destruct (get_system_state_spec w) as (st & Hst & Htr & _).
  assert (∃ M', result (pull_on (load_manifest w hostname) st) = inr M')
    as [M' HM'] by (eexists; apply pull_on_result).
  unfold pull. rewrite (trace_bind_inr _ _ _ Hst), (trace_bind_inr _ _ _ HM').
  rewrite Htr, !elem_of_app. intros [Hin|[Hin|Hin]].
  - exfalso. revert Hin. clear.
    destruct (exec w DNF_USERINSTALLED) as [|[] ?]; cbn;
      rewrite !elem_of_cons, elem_of_nil; intuition discriminate.
  - exfalso. pose proof (pull_on_trace (load_manifest w hostname) st) as Hall.
    rewrite Forall_forall in Hall. apply (Hall _ Hin).
  - exists st, M'. apply save_manifest_writes in Hin as (_ & ? & ? & _ & ?). done.
Qed.

(** C2. [pull] finds the new packages as the observed ones that are
    neither declared (system or optional) nor excluded; when there are
    any, the optional list becomes the sorted union of the old optional
    set and the new packages, and otherwise it is left as it is. The
    system list is never changed, so nothing is ever added to it, in the
    manifest that [pull] computes as in every document that it writes. *)
Theorem pull_adds_new_to_optional (w : World) (hostname : string)
    (M : Manifest) (S : SystemState) :
  pull_new_packages M S
    = packages S ∖ (set_of (get_system M) ∪ set_of (get_optional M))
        ∖ set_of (get_excluded_packages M) ∧
  (∃ M', result (pull_on M S) = inr M' ∧
         get_optional M'
           = (if bool_decide (pull_new_packages M S ≠ ∅)
              then sorted (set_of (get_optional M) ∪ pull_new_packages M S)
              else get_optional M) ∧
         set_of (get_optional M') = set_of (get_optional M) ∪ pull_new_packages M S ∧
         get_system M' = get_system M) ∧
  (∀ path doc, WriteToml path doc ∈ trace (pull w hostname) →
         get_system doc = get_system (load_manifest w hostname)).
Proof.
  assert (∀ M0 S0 M', result (pull_on M0 S0) = inr M' →
    get_optional M'
      = (if bool_decide (pull_new_packages M0 S0 ≠ ∅)
         then sorted (set_of (get_optional M0) ∪ pull_new_packages M0 S0)
         else get_optional M0) ∧
    set_of (get_optional M') = set_of (get_optional M0) ∪ pull_new_packages M0 S0 ∧
    get_system M' = get_system M0) as Hpull.
  { intros M0 S0 M'. rewrite pull_on_result. intros [= <-].
    fold (truthy (pull_new_packages M0 S0)).
    destruct (truthy (pull_new_packages M0 S0)) eqn:Hnew,
      (truthy (pull_new_flatpaks M0 S0)); cbv zeta;
      rewrite ?get_system_set_flatpak, ?get_optional_set_flatpak,
        ?get_system_set_optional, ?get_optional_set_optional, ?set_of_sorted;
      try done; apply truthy_false in Hnew; by rewrite Hnew, union_empty_r_L. }
  split_and!; [reflexivity| |].
  - eexists. split; [apply pull_on_result|]. apply Hpull, pull_on_result.
  - intros path doc (st & M' & _ & HM' & Hp & _)%pull_writes.
    destruct (Hpull _ _ _ HM') as (_ & _ & <-).
    unfold get_system. by rewrite Hp.
Qed.

(** C3, as stated, fails: [pull] adds an observed flatpak to the manifest
    although the manifest excludes that identifier. *)
Lemma pull_flatpaks_excluded_counterexample :
  result (pull_on excluding_manifest excluded_flatpak_state)
    = inr (set_flatpak_packages ["org.example.App"] excluding_manifest) ∧
  flatpaks excluded_flatpak_state
    ∖ set_of (get_flatpak_packages excluding_manifest)
    ∖ set_of (get_excluded_packages excluding_manifest) = ∅ ∧
  ¬ (∀ M S M', result (pull_on M S) = inr M' →
       set_of (get_flatpak_packages M') ∖ set_of (get_flatpak_packages M)
       = flatpaks S ∖ set_of (get_flatpak_packages M)
           ∖ set_of (get_excluded_packages M)).
Proof.
  assert (result (pull_on excluding_manifest excluded_flatpak_state)
    = inr (set_flatpak_packages ["org.example.App"] excluding_manifest)) as Hrun
    by (vm_compute; reflexivity).
  split_and!; [exact Hrun|by vm_compute|].
  intros Hclaim. specialize (Hclaim _ _ _ Hrun). vm_compute in Hclaim. discriminate.
Qed.

(** C3, amended. [pull] merges the flatpaks by the rule of the primary
    packages without its exclusion step: the new flatpaks are the observed
    ones that the manifest does not declare, whatever [excluded] holds;
    when there are any, the flatpak list becomes the sorted union of the
    declared and the new ones, directly in the enforced set. *)
Theorem pull_merges_flatpaks (M : Manifest) (S : SystemState)
    (excl : option ExcludedTable) :
  pull_new_flatpaks M S = flatpaks S ∖ set_of (get_flatpak_packages M) ∧
  pull_new_flatpaks
    (mkManifest (tbl_meta M) (tbl_packages M) (tbl_flatpak M) (tbl_copr M) excl) S
    = pull_new_flatpaks M S ∧
  ∃ M', result (pull_on M S) = inr M' ∧
        get_flatpak_packages M'
          = (if bool_decide (pull_new_flatpaks M S ≠ ∅)
             then sorted (set_of (get_flatpak_packages M) ∪ pull_new_flatpaks M S)
             else get_flatpak_packages M) ∧
        set_of (get_flatpak_packages M')
          = set_of (get_flatpak_packages M)
              ∪ (flatpaks S ∖ set_of (get_flatpak_packages M)) ∧
        set_of (get_flatpak_packages M') ∖ set_of (get_flatpak_packages M)
          = flatpaks S ∖ set_of (get_flatpak_packages M).
Proof.
  split; [reflexivity|]. split; [reflexivity|].
  eexists. split; [apply pull_on_result|].
  fold (truthy (pull_new_flatpaks M S)).
  assert (pull_new_flatpaks M S = flatpaks S ∖ set_of (get_flatpak_packages M))
    as Hdef by reflexivity.
  destruct (truthy (pull_new_flatpaks M S)) eqn:Hnew,
    (truthy (pull_new_packages M S)); cbv zeta;
    rewrite ?get_flatpak_packages_set_flatpak, ?get_flatpak_packages_set_optional,
      ?set_of_sorted;
    first [apply truthy_true in Hnew | apply truthy_false in Hnew];
    rewrite Hdef in *; (split; [done|]); set_solver.
Qed.

(** C9. The manifest that [pull] computes keeps every element of the
    system, optional and flatpak lists of the manifest it started from,
    and so does every document that [pull] writes. *)
Theorem pull_never_removes (w : World) (hostname : string) (M : Manifest)
    (S : SystemState) :
  (∃ M', result (pull_on M S) = inr M' ∧
         get_system M ⊆ get_system M' ∧
         get_optional M ⊆ get_optional M' ∧
         get_flatpak_packages M ⊆ get_flatpak_packages M') ∧
  (∀ path doc, WriteToml path doc ∈ trace (pull w hostname) →
         get_system (load_manifest w hostname) ⊆ get_system doc ∧
         get_optional (load_manifest w hostname) ⊆ get_optional doc ∧
         get_flatpak_packages (load_manifest w hostname) ⊆ get_flatpak_packages doc).
Proof.
  assert (∀ M0 S0 M', result (pull_on M0 S0) = inr M' →
    get_system M0 ⊆ get_system M' ∧ get_optional M0 ⊆ get_optional M' ∧
    get_flatpak_packages M0 ⊆ get_flatpak_packages M') as Hkeep.
  { intros M0 S0 M'. rewrite pull_on_result. intros [= <-].
    destruct (truthy (pull_new_packages M0 S0)), (truthy (pull_new_flatpaks M0 S0));
      cbv zeta;
      rewrite ?get_system_set_flatpak, ?get_optional_set_flatpak,
        ?get_flatpak_packages_set_flatpak, ?get_system_set_optional,
        ?get_optional_set_optional, ?get_flatpak_packages_set_optional;
      split_and!; try done; intros x Hx; apply elem_of_sorted;
      apply elem_of_union; left; by apply elem_of_set_of. }
  split.
  - eexists. split; [apply pull_on_result|]. apply (Hkeep M S), pull_on_result.
  - intros path doc (st & M' & _ & HM' & Hp & Hf & _)%pull_writes.
    unfold get_system, get_optional, get_flatpak_packages. rewrite Hp, Hf.
    apply (Hkeep _ _ _ HM').
Qed.

(** ** [apply] and its dry run *)

Lemma trace_bind {A B} (m : Eff A) (f : A → Eff B) :
  trace (m ≫= f)
    = trace m ++ match result m with inr a => trace (f a) | inl _ => [] end.
Proof.
  unfold mbind, Eff_bind, eff_bind. destruct (result m); simpl; [|done].
  by rewrite app_nil_r.
Qed.

Lemma result_bind {A B} (m : Eff A) (f : A → Eff B) :
  result (m ≫= f)
    = match result m with inr a => result (f a) | inl e => inl e end.
Proof. unfold mbind, Eff_bind, eff_bind. by destruct (result m). Qed.

Lemma runs_app t1 t2 : runs (t1 ++ t2) = runs t1 ++ runs t2.
Proof. apply omap_app. Qed.

Lemma printed_app t1 t2 : printed (t1 ++ t2) = printed t1 ++ printed t2.
Proof. apply omap_app. Qed.

Lemma runs_nil : runs [] = [].
Proof. reflexivity. Qed.
Lemma runs_Stdout s t : runs (Stdout s :: t) = runs t.
Proof. reflexivity. Qed.
Lemma runs_Run c t : runs (Run c :: t) = c :: runs t.
Proof. reflexivity. Qed.
Lemma printed_nil : printed [] = [].
Proof. reflexivity. Qed.
Lemma printed_Stdout s t : printed (Stdout s :: t) = s :: printed t.
Proof. reflexivity. Qed.
Lemma printed_Run c t : printed (Run c :: t) = printed t.
Proof. reflexivity. Qed.

Lemma runs_printed_lines (f : string → string) xs : runs (Stdout ∘ f <$> xs) = [].
Proof. by induction xs. Qed.

Lemma printed_printed_lines (f : string → string) xs :
  printed (Stdout ∘ f <$> xs) = f <$> xs.
Proof. induction xs; [done|]. cbn. by f_equal. Qed.

Lemma runs_run_cmds {A} (f : A → list string) xs : runs (Run ∘ f <$> xs) = f <$> xs.
Proof. induction xs; [done|]. cbn. by f_equal. Qed.

#[global] Arguments runs : simpl never.
#[global] Arguments printed : simpl never.

Lemma printed_run_cmds {A} (f : A → list string) xs : printed (Run ∘ f <$> xs) = [].
Proof. by induction xs. Qed.

Ltac trace_simpl :=
  repeat first
    [ rewrite runs_app | rewrite printed_app
    | rewrite runs_Stdout | rewrite runs_Run
    | rewrite printed_Stdout | rewrite printed_Run
    | rewrite runs_printed_lines | rewrite printed_printed_lines
    | rewrite runs_run_cmds | rewrite printed_run_cmds
    | rewrite runs_nil | rewrite printed_nil
    | rewrite app_nil_r | rewrite app_nil_l ].

(** One checked installer call. *)
Lemma install_call (w : World) (cmd : list string) :
  (subprocess_run w cmd true ;; mret tt) =
    mkEff [Run cmd]
      match exec w cmd with
      | NotFound => inl (FileNotFoundError cmd)
      | Exited rc out =>
          if negb (rc =? 0)%Z then inl (CalledProcessError rc cmd) else inr tt
      end.
Proof.
  unfold subprocess_run. destruct (exec w cmd) as [|rc out]; [done|].
  by destruct (rc =? 0)%Z.
Qed.

Lemma install_call_ok (w : World) (cmd : list string) :
  succeeds w cmd → (subprocess_run w cmd true ;; mret tt) = mkEff [Run cmd] (inr tt).
Proof. intros [out H]. by rewrite install_call, H. Qed.

(** The loop over the missing flatpaks runs one command per identifier,
    in order, and stops at the first that fails. *)
Lemma install_loop_trace (w : World) (f : string → list string) (xs : list string) :
  ∃ n, trace (for_each xs (λ x, subprocess_run w (f x) true ;; mret tt))
       = (Run ∘ f <$> take n xs).
Proof.
  induction xs as [|x xs [n IH]]; [by exists 0|].
  rewrite for_each_cons, install_call, trace_bind. cbn [trace result].
  destruct (exec w (f x)) as [|rc out]; [by exists 1|].
  destruct (rc =? 0)%Z; [|by exists 1].
  exists (Datatypes.S n). cbn [negb]. by rewrite IH.
Qed.

Lemma install_loop_ok (w : World) (f : string → list string) (xs : list string) :
  (∀ x, x ∈ xs → succeeds w (f x)) →
  for_each xs (λ x, subprocess_run w (f x) true ;; mret tt)
    = mkEff (Run ∘ f <$> xs) (inr tt).
Proof.
  induction xs as [|x xs IH]; intros Hok; [done|].
  rewrite for_each_cons, install_call_ok by (apply Hok; left).
  rewrite IH by (intros; apply Hok; by right). done.
Qed.

Lemma apply_on_dry_eq (w : World) (M : Manifest) (S : SystemState) :
  apply_on w M S true =
    mkEff
      (if negb (truthy (apply_missing M S)) && negb (truthy (apply_missing_flatpaks M S))
       then [Stdout "✓ Nothing to install"]
       else
         (if truthy (apply_missing M S) then
            Stdout ("Installing " +:+ pretty (size (apply_missing M S)) +:+ " DNF packages:")
            :: (Stdout ∘ (λ p, "  " +:+ p) <$> sorted (apply_missing M S))
          else []) ++
         (if truthy (apply_missing_flatpaks M S) then
            Stdout (NEWLINE +:+ "Installing "
                    +:+ pretty (size (apply_missing_flatpaks M S)) +:+ " Flatpaks:")
            :: (Stdout ∘ (λ p, "  " +:+ p) <$> sorted (apply_missing_flatpaks M S))
          else []) ++
         [Stdout (NEWLINE +:+ "(dry run, no changes made)")])
      (inr tt).
Proof.
  unfold apply_on. rewrite !for_each_print.
  destruct (truthy (apply_missing M S)), (truthy (apply_missing_flatpaks M S));
    cbn -[sorted NEWLINE]; rewrite ?app_nil_r, <- ?app_assoc; reflexivity.
Qed.

(** The run of [apply] that installs, in terms of the outcome of the
    batched call and of the loop over the missing flatpaks. *)
Lemma apply_on_real_eq (w : World) (M : Manifest) (S : SystemState) :
  let dnf := subprocess_run w
               (["sudo"; "dnf"; "install"; "-y"] ++ sorted (apply_missing M S)) true ;;
             mret tt in
  let loop := for_each (sorted (apply_missing_flatpaks M S)) (λ flatpak,
                subprocess_run w ["flatpak"; "install"; "-y"; flatpak] true ;; mret tt) in
  let first := if truthy (apply_missing M S) then result dnf else inr tt in
  apply_on w M S false =
    if negb (truthy (apply_missing M S)) && negb (truthy (apply_missing_flatpaks M S))
    then mkEff [Stdout "✓ Nothing to install"] (inr tt)
    else
      mkEff
        ((if truthy (apply_missing M S) then
            Stdout ("Installing " +:+ pretty (size (apply_missing M S)) +:+ " DNF packages:")
            :: (Stdout ∘ (λ p, "  " +:+ p) <$> sorted (apply_missing M S)) ++ trace dnf
          else []) ++
         match first with
         | inl _ => []
         | inr _ =>
             if truthy (apply_missing_flatpaks M S) then
               Stdout (NEWLINE +:+ "Installing "
                       +:+ pretty (size (apply_missing_flatpaks M S)) +:+ " Flatpaks:")
               :: (Stdout ∘ (λ p, "  " +:+ p) <$> sorted (apply_missing_flatpaks M S))
                  ++ trace loop
             else []
         end)
        match first with
        | inl e => inl e
        | inr _ => if truthy (apply_missing_flatpaks M S) then result loop else inr tt
        end.
Proof.
  cbv zeta. unfold apply_on. rewrite !for_each_print.
  generalize (for_each (sorted (apply_missing_flatpaks M S)) (λ flatpak,
    subprocess_run w ["flatpak"; "install"; "-y"; flatpak] true ;; mret tt)).
  generalize (subprocess_run w
    (["sudo"; "dnf"; "install"; "-y"] ++ sorted (apply_missing M S)) true ;; mret tt).
  intros [tD rD] [tI rI].
  destruct (truthy (apply_missing M S)), (truthy (apply_missing_flatpaks M S)),
    rD as [eD|[]], rI as [eI|[]];
    cbn -[sorted NEWLINE]; rewrite ?app_nil_r, <- ?app_assoc; reflexivity.
Qed.

Lemma apply_on_real_ok (w : World) (M : Manifest) (S : SystemState) :
  (truthy (apply_missing M S) = true →
   succeeds w (["sudo"; "dnf"; "install"; "-y"] ++ sorted (apply_missing M S))) →
  (∀ f, f ∈ sorted (apply_missing_flatpaks M S) →
        succeeds w ["flatpak"; "install"; "-y"; f]) →
  apply_on w M S false =
    mkEff
      (if negb (truthy (apply_missing M S)) && negb (truthy (apply_missing_flatpaks M S))
       then [Stdout "✓ Nothing to install"]
       else
         (if truthy (apply_missing M S) then
            Stdout ("Installing " +:+ pretty (size (apply_missing M S)) +:+ " DNF packages:")
            :: (Stdout ∘ (λ p, "  " +:+ p) <$> sorted (apply_missing M S))
               ++ [Run (["sudo"; "dnf"; "install"; "-y"] ++ sorted (apply_missing M S))]
          else []) ++
         (if truthy (apply_missing_flatpaks M S) then
            Stdout (NEWLINE +:+ "Installing "
                    +:+ pretty (size (apply_missing_flatpaks M S)) +:+ " Flatpaks:")
            :: (Stdout ∘ (λ p, "  " +:+ p) <$> sorted (apply_missing_flatpaks M S))
               ++ (Run ∘ (λ f, ["flatpak"; "install"; "-y"; f])
                     <$> sorted (apply_missing_flatpaks M S))
          else []))
      (inr tt).
Proof.
  intros Hdnf Hloop. rewrite apply_on_real_eq. cbv zeta.
  rewrite (install_loop_ok w (λ f, ["flatpak"; "install"; "-y"; f])) by done.
  destruct (truthy (apply_missing M S)); [rewrite install_call_ok by auto|];
    destruct (truthy (apply_missing_flatpaks M S)); reflexivity.
Qed.

Lemma fmap_take_prefix {A B} (f : A → B) (n : nat) (l : list A) :
  f <$> take n l `prefix_of` f <$> l.
Proof. exists (f <$> drop n l). by rewrite <- fmap_app, take_drop. Qed.

(** Whatever the installers do, the commands run by [apply] are the
    first commands of its plan, and what it prints are the first lines
    of what the dry run prints. *)
Lemma apply_on_real_prefix (w : World) (M : Manifest) (S : SystemState) :
  runs (trace (apply_on w M S false)) `prefix_of`
    (if truthy (apply_missing M S)
     then [["sudo"; "dnf"; "install"; "-y"] ++ sorted (apply_missing M S)] else [])
    ++ ((λ f, ["flatpak"; "install"; "-y"; f]) <$> sorted (apply_missing_flatpaks M S)) ∧
  printed (trace (apply_on w M S false)) `prefix_of`
    printed (trace (apply_on w M S true)).
Proof.
  rewrite apply_on_real_eq, apply_on_dry_eq. cbv zeta.
  destruct (install_loop_trace w (λ f, ["flatpak"; "install"; "-y"; f])
              (sorted (apply_missing_flatpaks M S))) as [n ->].
  rewrite install_call. cbn [trace result].
  generalize (match exec w (["sudo"; "dnf"; "install"; "-y"] ++ sorted (apply_missing M S)) with
              | NotFound =>
                  inl (FileNotFoundError
                         (["sudo"; "dnf"; "install"; "-y"] ++ sorted (apply_missing M S)))
              | Exited rc _ =>
                  if negb (rc =? 0)%Z
                  then inl (CalledProcessError rc
                              (["sudo"; "dnf"; "install"; "-y"] ++ sorted (apply_missing M S)))
                  else inr tt
              end : exn + unit).
  intros rD.
  assert (sorted (apply_missing_flatpaks M S) = [] ↔ truthy (apply_missing_flatpaks M S) = false)
    as Hnil by (by rewrite sorted_nil_iff, truthy_false).
  destruct (truthy (apply_missing M S)), (truthy (apply_missing_flatpaks M S)) eqn:Hf,
    rD as [eD|[]]; cbn [negb andb trace result];
    try (rewrite (proj2 Hnil) by done); trace_simpl;
    split;
    repeat first
      [ reflexivity
      | apply prefix_nil
      | apply prefix_cons
      | apply prefix_app
      | apply prefix_app_r; reflexivity
      | apply fmap_take_prefix ].
Qed.

Lemma truthy_bool_decide (X : idset) : truthy X = bool_decide (X ≠ ∅).
Proof. reflexivity. Qed.

Lemma both_empty_bool_decide (X Y : idset) :
  negb (truthy X) && negb (truthy Y) = bool_decide (X = ∅ ∧ Y = ∅).
Proof.
  destruct (truthy X) eqn:HX, (truthy Y) eqn:HY; simpl; symmetry;
    first [apply truthy_true in HX | apply truthy_false in HX];
    first [apply truthy_true in HY | apply truthy_false in HY];
    first [by apply bool_decide_eq_true_2 | apply bool_decide_eq_false_2; tauto].
Qed.

(** The probe runs its three queries, whatever they give. *)
Lemma runs_get_system_state (w : World) :
  runs (trace (get_system_state w)) = [DNF_USERINSTALLED; DNF_GROUPS; FLATPAK_LIST].
Proof.
  destruct (get_system_state_spec w) as (st & _ & -> & _).
  by destruct (exec w DNF_USERINSTALLED) as [|[] ?].
Qed.

Lemma apply_unfold (w : World) (hostname : string) (dry_run : bool) :
  ∃ st, result (get_system_state w) = inr st ∧
        trace (apply w hostname dry_run)
          = trace (get_system_state w)
              ++ trace (apply_on w (load_manifest w hostname) st dry_run) ∧
        result (apply w hostname dry_run)
          = result (apply_on w (load_manifest w hostname) st dry_run).
Proof.
  destruct (get_system_state_spec w) as (st & Hst & _). exists st.
  unfold apply. by rewrite trace_bind, result_bind, Hst.
Qed.

(** C4. [apply] installs the system packages that are not observed and
    the declared flatpaks that are not observed, and nothing else:
    optional packages and groups are not looked at. When every installer
    call succeeds, the calls are one batched [dnf install] with all
    missing packages in sorted order (none when nothing is missing)
    followed by one [flatpak install] per missing flatpak, in sorted
    order and without repetition; when a call fails, [apply] stops
    there, so the calls made are always the first calls of that plan. *)
Theorem apply_installs_missing (w : World) (M : Manifest) (S : SystemState) :
  let missing := set_of (get_system M) ∖ packages S in
  let missing_flatpaks := set_of (get_flatpak_packages M) ∖ flatpaks S in
  let plan :=
    (if bool_decide (missing ≠ ∅)
     then [["sudo"; "dnf"; "install"; "-y"] ++ sorted missing] else [])
    ++ ((λ f, ["flatpak"; "install"; "-y"; f]) <$> sorted missing_flatpaks) in
  apply_missing M S = missing ∧
  apply_missing_flatpaks M S = missing_flatpaks ∧
  (∀ x, x ∈ sorted missing ↔ x ∈ get_system M ∧ (x ∉ packages S)) ∧
  (∀ x, x ∈ sorted missing_flatpaks ↔
        x ∈ get_flatpak_packages M ∧ (x ∉ flatpaks S)) ∧
  NoDup (sorted missing) ∧ NoDup (sorted missing_flatpaks) ∧
  runs (trace (apply_on w M S false)) `prefix_of` plan ∧
  ((∀ cmd, cmd ∈ plan → succeeds w cmd) →
   runs (trace (apply_on w M S false)) = plan ∧
   result (apply_on w M S false) = inr tt).
Proof.
  intros missing missing_flatpaks plan.
  assert (apply_missing M S = missing) as Hm by reflexivity.
  assert (apply_missing_flatpaks M S = missing_flatpaks) as Hf by reflexivity.
  split_and!; try done.
  - intros x. unfold missing.
    by rewrite elem_of_sorted, elem_of_difference, elem_of_set_of.
  - intros x. unfold missing_flatpaks.
    by rewrite elem_of_sorted, elem_of_difference, elem_of_set_of.
  - apply NoDup_sorted.
  - apply NoDup_sorted.
  - destruct (apply_on_real_prefix w M S) as [H _]. by rewrite Hm, Hf in H.
  - intros Hok. subst plan. rewrite <- truthy_bool_decide in Hok |- *.
    rewrite apply_on_real_ok; rewrite ?Hm, ?Hf.
    + cbn [trace result]. split; [|done].
      destruct (truthy missing), (truthy missing_flatpaks) eqn:E;
        cbn [negb andb]; trace_simpl; try done;
        apply truthy_false, sorted_nil_iff in E; by rewrite E.
    + intros Ht. apply Hok. rewrite Ht. apply elem_of_app. left. by left.
    + intros f Hin. apply Hok. apply elem_of_app. right.
      by apply (list_elem_of_fmap_2 (λ f, ["flatpak"; "install"; "-y"; f])).
Qed.

Lemma apply_installs_missing_witness :
  runs (trace (apply_on all_succeed workstation only_git false))
    = [["sudo"; "dnf"; "install"; "-y"; "vim"];
       ["flatpak"; "install"; "-y"; "org.a.A"];
       ["flatpak"; "install"; "-y"; "org.b.B"]] ∧
  result (apply_on all_succeed workstation only_git false) = inr tt.
Proof.
  destruct (apply_installs_missing all_succeed workstation only_git)
    as (_ & _ & _ & _ & _ & _ & _ & H).
  destruct H as [H1 H2].
  - intros cmd _. by exists "".
  - split; [|exact H2]. rewrite H1. vm_compute. reflexivity.
Defined.

(** C5. [diff] is [apply] with [dry_run] set: from the same manifest and
    state it works on the same missing sets, prints the plan, runs no
    command and never fails. What an installing [apply] prints is the
    beginning of what [diff] prints; when all installer calls succeed the
    two print the same lines up to the closing dry-run notice, and the
    commands that [apply] runs install the very identifiers that [diff]
    lists. From the command line, [diff] runs the three queries of the
    probe and nothing else, and exits with 0. *)
Theorem diff_matches_apply (w : World) (hostname : string) (M : Manifest)
    (S : SystemState) :
  let missing := apply_missing M S in
  let missing_flatpaks := apply_missing_flatpaks M S in
  let plan :=
    (if bool_decide (missing ≠ ∅)
     then [["sudo"; "dnf"; "install"; "-y"] ++ sorted missing] else [])
    ++ ((λ f, ["flatpak"; "install"; "-y"; f]) <$> sorted missing_flatpaks) in
  let notice := NEWLINE +:+ "(dry run, no changes made)" in
  runs (trace (apply_on w M S true)) = [] ∧
  result (apply_on w M S true) = inr tt ∧
  printed (trace (apply_on w M S true))
    = (if bool_decide (missing = ∅ ∧ missing_flatpaks = ∅)
       then ["✓ Nothing to install"]
       else
         (if bool_decide (missing ≠ ∅) then
            ("Installing " +:+ pretty (size missing) +:+ " DNF packages:")
            :: ((λ p, "  " +:+ p) <$> sorted missing)
          else []) ++
         (if bool_decide (missing_flatpaks ≠ ∅) then
            (NEWLINE +:+ "Installing " +:+ pretty (size missing_flatpaks) +:+ " Flatpaks:")
            :: ((λ p, "  " +:+ p) <$> sorted missing_flatpaks)
          else []) ++
         [notice]) ∧
  printed (trace (apply_on w M S false))
    `prefix_of` printed (trace (apply_on w M S true)) ∧
  ((∀ cmd, cmd ∈ plan → succeeds w cmd) →
   runs (trace (apply_on w M S false)) = plan ∧
   printed (trace (apply_on w M S true))
     = printed (trace (apply_on w M S false))
         ++ (if bool_decide (missing = ∅ ∧ missing_flatpaks = ∅) then [] else [notice])) ∧
  runs (trace (apply w hostname true))
    = [DNF_USERINSTALLED; DNF_GROUPS; FLATPAK_LIST] ∧
  result (main w CmdDiff (Some hostname)) = inr 0%Z.
Proof.
  intros missing missing_flatpaks plan notice.
  split_and!.
  - rewrite apply_on_dry_eq. cbn [trace].
    destruct (truthy (apply_missing M S)), (truthy (apply_missing_flatpaks M S));
      cbn [negb andb]; by trace_simpl.
  - by rewrite apply_on_dry_eq.
  - rewrite apply_on_dry_eq. cbn [trace].
    rewrite both_empty_bool_decide, !truthy_bool_decide.
    fold missing missing_flatpaks.
    destruct (bool_decide (missing = ∅ ∧ missing_flatpaks = ∅)),
      (bool_decide (missing ≠ ∅)), (bool_decide (missing_flatpaks ≠ ∅));
      by trace_simpl.
  - apply apply_on_real_prefix.
  - intros Hok. subst plan. rewrite <- truthy_bool_decide in Hok |- *.
    rewrite <- both_empty_bool_decide.
    rewrite apply_on_dry_eq, apply_on_real_ok; fold missing missing_flatpaks.
    + cbn [trace].
      destruct (truthy missing), (truthy missing_flatpaks) eqn:E;
        cbn [negb andb]; trace_simpl; rewrite <- ?app_assoc; try done;
        apply truthy_false, sorted_nil_iff in E; by rewrite E.
    + intros Ht. apply Hok. rewrite Ht. apply elem_of_app. left. by left.
    + intros f Hin. apply Hok. apply elem_of_app. right.
      by apply (list_elem_of_fmap_2 (λ f, ["flatpak"; "install"; "-y"; f])).
  - destruct (apply_unfold w hostname true) as (st & _ & -> & _).
    rewrite runs_app, runs_get_system_state, apply_on_dry_eq. cbn [trace].
    destruct (truthy (apply_missing (load_manifest w hostname) st)),
      (truthy (apply_missing_flatpaks (load_manifest w hostname) st));
      cbn [negb andb]; by trace_simpl.
  - destruct (apply_unfold w hostname true) as (st & _ & _ & Hres).
    change (main w CmdDiff (Some hostname))
      with (apply w hostname true ;; mret 0%Z).
    rewrite result_bind, Hres. by rewrite apply_on_dry_eq.
Qed.

Lemma diff_matches_apply_witness :
  runs (trace (apply_on all_succeed workstation only_git false))
    = [["sudo"; "dnf"; "install"; "-y"; "vim"];
       ["flatpak"; "install"; "-y"; "org.a.A"];
       ["flatpak"; "install"; "-y"; "org.b.B"]] ∧
  printed (trace (apply_on all_succeed workstation only_git true))
    = ["Installing 1 DNF packages:"; "  vim";
       NEWLINE +:+ "Installing 2 Flatpaks:"; "  org.a.A"; "  org.b.B";
       NEWLINE +:+ "(dry run, no changes made)"] ∧
  printed (trace (apply_on all_succeed workstation only_git true))
    = printed (trace (apply_on all_succeed workstation only_git false))
        ++ [NEWLINE +:+ "(dry run, no changes made)"].
Proof.
  destruct (diff_matches_apply all_succeed "host" workstation only_git)
    as (_ & _ & Hp & _ & H & _).
  destruct H as [H1 H2].
  - intros cmd _. by exists "".
  - split_and!.
    + rewrite H1. vm_compute. reflexivity.
    + rewrite Hp. vm_compute. reflexivity.
    + rewrite H2. vm_compute. reflexivity.
Defined.

(** C8. When the state observed after an [apply] is the earlier state
    with the missing packages and the missing flatpaks added, a second
    [apply] finds nothing missing: it prints that there is nothing to
    install and runs no command. *)
Theorem apply_twice_installs_nothing (w : World) (M : Manifest)
    (S S' : SystemState) (dry_run : bool) :
  packages S' = packages S ∪ apply_missing M S →
  flatpaks S' = flatpaks S ∪ apply_missing_flatpaks M S →
  apply_missing M S' = ∅ ∧
  apply_missing_flatpaks M S' = ∅ ∧
  apply_on w M S' dry_run = mkEff [Stdout "✓ Nothing to install"] (inr tt) ∧
  runs (trace (apply_on w M S' dry_run)) = [].
Proof.
  intros Hp Hf.
  assert (apply_missing M S' = ∅) as Hm.
  { unfold apply_missing in *. rewrite Hp. set_solver. }
  assert (apply_missing_flatpaks M S' = ∅) as Hmf.
  { unfold apply_missing_flatpaks in *. rewrite Hf. set_solver. }
  assert (apply_on w M S' dry_run = mkEff [Stdout "✓ Nothing to install"] (inr tt)) as Hrun.
  { unfold apply_on. rewrite Hm, Hmf. reflexivity. }
  split_and!; try done. by rewrite Hrun.
Qed.

Lemma apply_twice_installs_nothing_witness :
  apply_on all_succeed workstation after_install false
    = mkEff [Stdout "✓ Nothing to install"] (inr tt).
Proof.
  apply (apply_twice_installs_nothing all_succeed workstation only_git
           after_install false).
  - vm_compute. reflexivity.
  - vm_compute. reflexivity.
Defined.

(** ** Further properties of the drift report *)

(** No identifier is both missing and extra. *)
Lemma status_missing_extra_disjoint (M : Manifest) (S : SystemState) :
  status_missing M S ∩ status_extra M S = ∅.
Proof. unfold status_missing, status_extra. set_solver. Qed.

(** Excluding one more identifier never adds an extra package. *)
Lemma status_extra_exclusion_monotone (sys opt excl : list string) (x : string)
    (S : SystemState) :
  status_extra (manifest_with sys opt (x :: excl)) S
    ⊆ status_extra (manifest_with sys opt excl) S.
Proof.
  unfold status_extra, status_excluded, status_declared_pkgs, set_of. cbn.
  set_solver.
Qed.

(** ** Scenarios *)

Example strip_split_example :
  Str.split_lines (Str.strip ("  git" +:+ NEWLINE +:+ "vim " +:+ NEWLINE +:+ NEWLINE))
    = ["git"; "vim"] ∧
  Str.split_lines "" = [""] ∧
  parse_ids "" = ∅.
Proof. by vm_compute. Qed.

Example replace_example :
  Str.replace (Str.lower "Development Tools") " " "-" = "development-tools" ∧
  Str.replace "aaa" "aa" "b" = "ba" ∧
  stem "_copr_user-tool.repo" = "_copr_user-tool" ∧
  copr_glob "fedora.repo" = false ∧ copr_glob "_copr.repo" = true.
Proof. by vm_compute. Qed.

Example probe_example :
  ∃ st, get_system_state fedora_host
          = mkEff [Run DNF_USERINSTALLED; Run DNF_GROUPS; Run FLATPAK_LIST] (inr st) ∧
        sorted (packages st) = ["git"; "htop"] ∧
        sorted (groups st) = ["development-tools"] ∧
        sorted (flatpaks st) = ["org.mozilla.firefox"] ∧
        sorted (copr_repos st)
          = ["copr.fedorainfracloud.org:atim:starship"; "user-tool"].
Proof. eexists. split_and!; by vm_compute. Qed.

Example status_missing_example :
  let M := manifest_with ["git"; "vim"] [] [] in
  let S := mkSystemState {[ "git" ]} ∅ ∅ ∅ in
  status_missing M S = {[ "vim" ]} ∧ status_extra M S = ∅ ∧
  result (status_on "localhost" M S) = inr 1%Z.
Proof. by vm_compute. Qed.

Example status_extra_example :
  let M := manifest_with ["git"] [] [] in
  let S := mkSystemState {[ "git"; "htop" ]} ∅ ∅ ∅ in
  status_missing M S = ∅ ∧ status_extra M S = {[ "htop" ]} ∧
  result (status_on "localhost" M S) = inr 0%Z.
Proof. by vm_compute. Qed.

Example status_excluded_example :
  let M := manifest_with ["git"] [] ["htop"] in
  let S := mkSystemState {[ "git"; "htop" ]} ∅ ∅ ∅ in
  status_extra M S = ∅ ∧
  status_on "localhost" M S
    = mkEff [Stdout "Host: localhost"; Stdout "Manifest packages: 1";
             Stdout "System packages: 2"; Stdout "";
             Stdout "✓ System matches manifest"] (inr 0%Z).
Proof. by vm_compute. Qed.

Example pull_example :
  let M := manifest_with [] ["git"] [] in
  let S := mkSystemState {[ "git"; "htop" ]} ∅ ∅ ∅ in
  pull_on M S
    = mkEff [Stdout "Adding 1 new packages to optional:"; Stdout "  + htop"]
        (inr (manifest_with [] ["git"; "htop"] [])).
Proof. by vm_compute. Qed.

Example apply_example :
  let M := manifest_with ["curl"] [] [] in
  apply_on all_succeed M empty_state true
    = mkEff [Stdout "Installing 1 DNF packages:"; Stdout "  curl";
             Stdout (NEWLINE +:+ "(dry run, no changes made)")] (inr tt) ∧
  apply_on all_succeed M empty_state false
    = mkEff [Stdout "Installing 1 DNF packages:"; Stdout "  curl";
             Run ["sudo"; "dnf"; "install"; "-y"; "curl"]] (inr tt).
Proof. by vm_compute. Qed.

(** A failing installer call ends [apply] at once: the flatpaks that are
    missing are then not installed. *)
Example apply_fail_fast_example :
  let w := mkWorld "localhost" (λ _, Exited 1 "") ∅ None "" "/manifests" in
  apply_on w workstation only_git false
    = mkEff [Stdout "Installing 1 DNF packages:"; Stdout "  vim";
             Run ["sudo"; "dnf"; "install"; "-y"; "vim"]]
        (inl (CalledProcessError 1 ["sudo"; "dnf"; "install"; "-y"; "vim"])).
Proof. by vm_compute. Qed.

(** On a host without a manifest file, [pull] starts from the template and
    writes the observed packages as optional ones. *)
Example pull_new_host_example :
  ∃ doc, pull fedora_host "fedora"
           = mkEff [Run DNF_USERINSTALLED; Run DNF_GROUPS; Run FLATPAK_LIST;
                    Stdout "Adding 2 new packages to optional:";
                    Stdout "  + git"; Stdout "  + htop";
                    Stdout "Adding 1 new flatpaks:";
                    Stdout "  + org.mozilla.firefox";
                    WriteToml "/manifests/fedora.toml" doc;
                    Stdout "Saved /manifests/fedora.toml"] (inr tt) ∧
         get_system doc = [] ∧ get_optional doc = ["git"; "htop"] ∧
         get_flatpak_packages doc = ["org.mozilla.firefox"].
Proof. eexists. split_and!; by vm_compute. Qed.

(** * Further properties of the code *)

(** ** Identifiers in the snapshot *)

Lemma split_lines_no_newline (s x : string) :
  x ∈ Str.split_lines s → all_chars not_newline x = true.
Proof.
  revert x. induction s as [|c s IH]; intros x; simpl.
  - by intros ->%list_elem_of_singleton.
  - destruct (Ascii.eqb c Str.NL) eqn:Hc.
    + intros [->|Hx]%elem_of_cons; [done|by apply IH].
    + destruct (Str.split_lines s) as [|h t] eqn:Hs.
      * intros ->%list_elem_of_singleton. simpl. unfold not_newline. by rewrite Hc.
      * intros [->|Hx]%elem_of_cons.
        -- simpl. unfold not_newline at 1. rewrite Hc. simpl. apply IH. by left.
        -- apply IH. by right.
Qed.

Lemma parse_ids_spec (out x : string) :
  x ∈ parse_ids out → x ≠ "" ∧ all_chars not_newline x = true.
Proof.
  unfold parse_ids. rewrite elem_of_difference, elem_of_set_of, elem_of_singleton.
  intros [Hx Hne]. split; [done|]. by eapply split_lines_no_newline.
Qed.

Lemma lower_char_not_upper (c : ascii) : is_upper (Str.lower_char c) = false.
Proof. destruct c as [[] [] [] [] [] [] [] []]; reflexivity. Qed.

Lemma lower_all_not_upper (s : string) :
  all_chars (λ c, negb (is_upper c)) (Str.lower s) = true.
Proof.
  induction s as [|c s IH]; [done|]. simpl.
  by rewrite lower_char_not_upper, IH.
Qed.

(** Replacing one character by another works character by character. *)
Lemma replace_char_cons (a b c : ascii) (s : string) :
  Str.replace (String c s) (String a "") (String b "")
    = String (if Ascii.eqb a c then b else c)
        (Str.replace s (String a "") (String b "")).
Proof.
  unfold Str.replace. simpl.
  destruct (ascii_dec a c) as [->|Hne].
  - rewrite Ascii.eqb_refl. by destruct s.
  - apply Ascii.eqb_neq in Hne. by rewrite Hne.
Qed.

Lemma replace_space_hyphen (s : string) :
  all_chars (λ c, negb (is_upper c)) s = true →
  all_chars group_char (Str.replace s " " "-") = true.
Proof.
  induction s as [|c s IH]; [done|]. rewrite replace_char_cons.
  cbn [all_chars]. intros [Hc Hs]%andb_prop. specialize (IH Hs).
  destruct (Ascii.eqb " " c) eqn:E; cbn [all_chars]; rewrite IH, andb_true_r.
  - reflexivity.
  - unfold group_char. by rewrite Hc, Ascii.eqb_sym, E.
Qed.

Lemma replace_space_nonempty (s : string) :
  s ≠ "" → Str.replace (Str.lower s) " " "-" ≠ "".
Proof. destruct s as [|c s]; [done|]. intros _. simpl Str.lower. by rewrite replace_char_cons. Qed.

Lemma groups_foldl_invariant (P : string → Prop) (ls : list string)
    (st : SystemState) :
  (∀ line, Str.strip line ≠ "" →
           P (Str.replace (Str.lower (Str.strip line)) " " "-")) →
  (∀ g, g ∈ groups st → P g) →
  ∀ g, g ∈ groups (foldl add_group_line st ls) → P g.
Proof.
  intros Hnew. revert st. induction ls as [|l ls IH]; intros st Hst; [done|].
  simpl. apply IH. intros g. unfold add_group_line.
  destruct (String.eqb (Str.strip l) "") eqn:E; simpl; [by apply Hst|].
  destruct (Str.startswith (Str.strip l) "Installed"); simpl; [by apply Hst|].
  rewrite elem_of_union, elem_of_singleton. intros [->|Hg]; [|by apply Hst].
  apply Hnew. by apply String.eqb_neq.
Qed.

(** X1. In every snapshot, the package and flatpak identifiers are
    non-empty and none contains a line break: the output of a query is
    read one identifier per line, and blank lines are dropped. *)
Theorem probe_identifiers_well_formed (w : World) :
  ∃ st, result (get_system_state w) = inr st ∧
        (∀ x, x ∈ packages st → x ≠ "" ∧ all_chars not_newline x = true) ∧
        (∀ x, x ∈ flatpaks st → x ≠ "" ∧ all_chars not_newline x = true).
Proof.
  destruct (get_system_state_spec w) as (st & Hst & _ & Hp & _ & Hf & _).
  exists st. split; [done|]. rewrite Hp, Hf. split; intros x.
  - destruct (exec w DNF_USERINSTALLED) as [|[] out];
      first [apply parse_ids_spec | set_solver].
  - destruct (exec w FLATPAK_LIST) as [|[] out];
      first [apply parse_ids_spec | set_solver].
Qed.

(** X2. In every snapshot, the group names are normalised: a group name
    is non-empty and contains neither a space nor an upper-case ASCII
    letter, whatever the group query wrote. *)
Theorem probe_groups_normalised (w : World) :
  ∃ st, result (get_system_state w) = inr st ∧
        ∀ g, g ∈ groups st → g ≠ "" ∧ all_chars group_char g = true.
Proof.
  destruct (get_system_state_spec w) as (st & Hst & _ & _ & Hg & _).
  exists st. split; [done|]. rewrite Hg.
  destruct (exec w DNF_GROUPS) as [|rc out]; [set_solver|].
  apply groups_foldl_invariant; [|set_solver].
  intros line Hne. split.
  - by apply replace_space_nonempty.
  - apply replace_space_hyphen, lower_all_not_upper.
Qed.

(** ** [pull] composed with itself, with [status] and with [apply] *)

(** Goals about sets are closed with the sets of the manifest and of the
    system taken as unknowns. *)
Ltac set_taut :=
  set_unfold; intros;
  repeat match goal with
  | |- context [?x ∈ ?X] =>
      lazymatch goal with
      | H : x ∈ X |- _ => fail
      | H : x ∉ X |- _ => fail
      | H : ¬ (x ∈ X) |- _ => fail
      | _ => destruct (decide (x ∈ X))
      end
  end; tauto.

Ltac set_goal :=
  repeat match goal with
  | |- context [set_of ?l] => generalize (set_of l); intro
  | |- context [packages ?S] => generalize (packages S); intro
  | |- context [flatpaks ?S] => generalize (flatpaks S); intro
  end;
  repeat match goal with H : _ |- _ => clear H end;
  set_taut.

(** The sets of the manifest that [pull] computes. *)
Lemma pull_on_sets (M M' : Manifest) (S : SystemState) :
  result (pull_on M S) = inr M' →
  get_system M' = get_system M ∧
  set_of (get_optional M') = set_of (get_optional M) ∪ pull_new_packages M S ∧
  set_of (get_flatpak_packages M')
    = set_of (get_flatpak_packages M) ∪ pull_new_flatpaks M S ∧
  get_excluded_packages M' = get_excluded_packages M ∧
  get_groups M' = get_groups M ∧
  tbl_meta M' = tbl_meta M ∧ tbl_copr M' = tbl_copr M ∧
  tbl_excluded M' = tbl_excluded M.
Proof.
  rewrite pull_on_result. intros [= <-].
  destruct (truthy (pull_new_packages M S)) eqn:Hp,
    (truthy (pull_new_flatpaks M S)) eqn:Hf; cbv zeta;
    rewrite ?get_system_set_flatpak, ?get_optional_set_flatpak,
      ?get_flatpak_packages_set_flatpak, ?get_system_set_optional,
      ?get_optional_set_optional, ?get_flatpak_packages_set_optional,
      ?set_of_sorted;
    first [apply truthy_false in Hp; rewrite Hp | idtac];
    first [apply truthy_false in Hf; rewrite Hf | idtac];
    rewrite ?union_empty_r_L; split_and!; try reflexivity;
    unfold get_groups, set_optional; simpl; by destruct (tbl_packages M).
Qed.

Lemma pull_on_total (M : Manifest) (S : SystemState) :
  ∃ M', result (pull_on M S) = inr M'.
Proof. eexists. apply pull_on_result. Qed.

(** A [pull] that finds nothing new prints nothing and leaves the
    manifest as it is, order and repetitions of its lists included. *)
Lemma pull_on_nothing_new (M : Manifest) (S : SystemState) :
  pull_new_packages M S = ∅ → pull_new_flatpaks M S = ∅ →
  pull_on M S = mkEff [] (inr M).
Proof.
  intros Hp Hf. unfold pull_on.
  assert (truthy (pull_new_packages M S) = false) as -> by by apply truthy_false.
  cbn -[truthy pull_new_flatpaks].
  assert (truthy (pull_new_flatpaks M S) = false) as -> by by apply truthy_false.
  reflexivity.
Qed.

(** X3. After [pull], [status] on the same system finds no extra package
    and no extra flatpak, and the missing sets are what they were: [pull]
    absorbs what is installed and never hides what is missing. *)
Theorem pull_absorbs_extra (M : Manifest) (S : SystemState) :
  ∃ M', result (pull_on M S) = inr M' ∧
        status_extra M' S = ∅ ∧
        status_extra_flatpaks M' S = ∅ ∧
        status_missing M' S = status_missing M S ∧
        status_missing_flatpaks M' S = status_missing_flatpaks M S.
Proof.
  destruct (pull_on_total M S) as [M' HM']. exists M'. split; [done|].
  destruct (pull_on_sets M M' S HM')
    as (Hs & Ho & Hf & He & _).
  unfold status_extra, status_extra_flatpaks, status_missing,
    status_missing_flatpaks, status_declared_pkgs, status_declared_flatpaks,
    status_excluded.
  rewrite Hs, Ho, Hf, He. unfold pull_new_packages, pull_new_flatpaks.
  split_and!; set_goal.
Qed.

(** X4. [pull] is idempotent: a second [pull] from the same system
    finds nothing new, prints nothing and returns the manifest of the
    first unchanged. *)
Theorem pull_idempotent (M : Manifest) (S : SystemState) :
  ∃ M', result (pull_on M S) = inr M' ∧
        pull_new_packages M' S = ∅ ∧ pull_new_flatpaks M' S = ∅ ∧
        pull_on M' S = mkEff [] (inr M').
Proof.
  destruct (pull_on_total M S) as [M' HM']. exists M'. split; [done|].
  destruct (pull_on_sets M M' S HM')
    as (Hs & Ho & Hf & He & _).
  match goal with |- ?A ∧ ?B ∧ _ => assert (A ∧ B) as [Hp Hq] end.
  { unfold pull_new_packages, pull_new_flatpaks. rewrite Hs, Ho, Hf, He.
    unfold pull_new_packages, pull_new_flatpaks. split; set_goal. }
  split_and!; [done|done|]. by apply pull_on_nothing_new.
Qed.

(** X5. [pull] does not change what [apply] does: with the manifest that
    [pull] computes, [apply] finds the same missing packages and flatpaks
    and makes the same run, dry or not. Packages that [pull] adds are
    optional, and flatpaks that it adds are already installed. *)
Theorem pull_preserves_apply (w : World) (M : Manifest) (S : SystemState)
    (dry_run : bool) :
  ∃ M', result (pull_on M S) = inr M' ∧
        apply_missing M' S = apply_missing M S ∧
        apply_missing_flatpaks M' S = apply_missing_flatpaks M S ∧
        apply_on w M' S dry_run = apply_on w M S dry_run.
Proof.
  destruct (pull_on_total M S) as [M' HM']. exists M'. split; [done|].
  destruct (pull_on_sets M M' S HM')
    as (Hs & _ & Hf & _).
  match goal with |- ?A ∧ ?B ∧ _ => assert (A ∧ B) as [Hp Hq] end.
  { unfold apply_missing, apply_missing_flatpaks. rewrite Hs, Hf.
    unfold pull_new_flatpaks. split; set_goal. }
  split_and!; [done|done|]. unfold apply_on. by rewrite Hp, Hq.
Qed.

(** X6. The lists that [pull] rewrites are in sorted order and free of
    repetitions, whatever the order and repetitions of the lists it
    started from. *)
Theorem pull_writes_sorted_lists (M : Manifest) (S : SystemState) :
  ∃ M', result (pull_on M S) = inr M' ∧
        (pull_new_packages M S ≠ ∅ →
         Sorted String.le (get_optional M') ∧ NoDup (get_optional M')) ∧
        (pull_new_flatpaks M S ≠ ∅ →
         Sorted String.le (get_flatpak_packages M') ∧
         NoDup (get_flatpak_packages M')).
Proof.
  destruct (pull_on_total M S) as [M' HM']. exists M'. split; [done|].
  rewrite pull_on_result in HM'. injection HM' as <-. split.
  - intros Hp%truthy_true. rewrite Hp.
    destruct (truthy (pull_new_flatpaks M S)); cbv zeta;
      rewrite ?get_optional_set_flatpak, get_optional_set_optional;
      split; first [apply Sorted_sorted | apply NoDup_sorted].
  - intros Hf%truthy_true. rewrite Hf. cbv zeta.
    rewrite get_flatpak_packages_set_flatpak.
    split; first [apply Sorted_sorted | apply NoDup_sorted].
Qed.

(** ** What is written and what is run *)

Lemma writes_app t1 t2 : writes (t1 ++ t2) = writes t1 ++ writes t2.
Proof. apply omap_app. Qed.

Lemma writes_no_write (t : list event) :
  Forall is_Stdout_or_Run t → writes t = [].
Proof.
  induction 1 as [|e t He _ IH]; [done|].
  destruct e; first [done | exact IH].
Qed.

Lemma runs_all_Stdout (t : list event) : Forall is_Stdout t → runs t = [].
Proof.
  induction 1 as [|e t He _ IH]; [done|].
  destruct e; first [done | by rewrite runs_Stdout].
Qed.

Lemma Stdout_is_Stdout_or_Run (t : list event) :
  Forall is_Stdout t → Forall is_Stdout_or_Run t.
Proof. intros H. eapply Forall_impl; [exact H|]. by intros []. Qed.

Ltac forall_events :=
  repeat first
    [ apply Forall_nil_2
    | apply Forall_cons_2; [exact I|]
    | apply Forall_app_2
    | apply Forall_printed_lines
    | match goal with |- Forall _ (if ?c then _ else _) => destruct c end ].

Lemma status_on_prints_only (hostname : string) (M : Manifest) (S : SystemState) :
  Forall is_Stdout (trace (status_on hostname M S)).
Proof. rewrite status_on_trace. forall_events. Qed.

Lemma Forall_run_cmds {A} (f : A → list string) (xs : list A) :
  Forall is_Stdout_or_Run (Run ∘ f <$> xs).
Proof. apply Forall_fmap, Forall_forall. by intros. Qed.

Lemma apply_on_events (w : World) (M : Manifest) (S : SystemState) (dry_run : bool) :
  Forall is_Stdout_or_Run (trace (apply_on w M S dry_run)).
Proof.
  destruct dry_run.
  - rewrite apply_on_dry_eq. cbn [trace]. apply Stdout_is_Stdout_or_Run.
    forall_events.
  - rewrite apply_on_real_eq. cbv zeta.
    destruct (install_loop_trace w (λ f, ["flatpak"; "install"; "-y"; f])
                (sorted (apply_missing_flatpaks M S))) as [n ->].
    rewrite install_call. cbn [trace result].
    repeat first
      [ apply Forall_nil_2
      | apply Forall_cons_2; [exact I|]
      | apply Forall_app_2
      | apply Stdout_is_Stdout_or_Run, Forall_printed_lines
      | apply Forall_run_cmds
      | match goal with
        | |- Forall _ (trace (if ?c then _ else _)) => destruct c
        | |- Forall _ (if ?c then _ else _) => destruct c
        | |- Forall _ (match (if ?c then _ else _) with _ => _ end) => destruct c
        | |- Forall _ (match (match ?c with _ => _ end) with _ => _ end) => destruct c
        end
      | progress cbn [trace] ].
Qed.

Lemma writes_get_system_state (w : World) : writes (trace (get_system_state w)) = [].
Proof.
  destruct (get_system_state_spec w) as (st & _ & -> & _).
  by destruct (exec w DNF_USERINSTALLED) as [|[] ?].
Qed.

Lemma pull_unfold (w : World) (hostname : string) :
  ∃ st M', result (get_system_state w) = inr st ∧
           result (pull_on (load_manifest w hostname) st) = inr M' ∧
           trace (pull w hostname)
             = trace (get_system_state w)
                 ++ trace (pull_on (load_manifest w hostname) st)
                 ++ trace (save_manifest w hostname M') ∧
           result (pull w hostname) = result (save_manifest w hostname M').
Proof.
  destruct (get_system_state_spec w) as (st & Hst & _).
  destruct (pull_on_total (load_manifest w hostname) st) as [M' HM'].
  exists st, M'. split_and!; [done|done|..]; unfold pull.
  - by rewrite (trace_bind_inr _ _ _ Hst), (trace_bind_inr _ _ _ HM').
  - by rewrite (result_bind_inr _ _ _ Hst), (result_bind_inr _ _ _ HM').
Qed.

(** X7. [pull] saves whenever the manifest it loaded has a [meta] table,
    also when nothing was new: it writes one document, to the file of the
    host, which is the merged manifest with [meta.updated] set to the
    current time and every other key as it was. When the loaded document
    has no [meta] table, [pull] ends with a [KeyError] and writes
    nothing. *)
Theorem pull_saves_once (w : World) (hostname : string) :
  ∃ st M', result (get_system_state w) = inr st ∧
           result (pull_on (load_manifest w hostname) st) = inr M' ∧
           match tbl_meta (load_manifest w hostname) with
           | Some meta =>
               writes (trace (pull w hostname))
                 = [(manifest_path w hostname,
                     mkManifest (Some (<["updated" := utc_now w]> meta))
                       (tbl_packages M') (tbl_flatpak M')
                       (tbl_copr (load_manifest w hostname))
                       (tbl_excluded (load_manifest w hostname)))] ∧
               result (pull w hostname) = inr tt
           | None =>
               writes (trace (pull w hostname)) = [] ∧
               result (pull w hostname) = inl (KeyError "meta")
           end.
Proof.
  destruct (pull_unfold w hostname) as (st & M' & Hst & HM' & Htr & Hres).
  exists st, M'. split_and!; [done|done|].
  destruct (pull_on_sets _ _ _ HM') as (_ & _ & _ & _ & _ & Hmeta & Hcopr & Hexcl).
  rewrite Htr, Hres, !writes_app, writes_get_system_state.
  rewrite (writes_no_write (trace (pull_on _ _)))
    by apply Stdout_is_Stdout_or_Run, pull_on_trace.
  unfold save_manifest. rewrite Hmeta, <- Hcopr, <- Hexcl.
  by destruct (tbl_meta (load_manifest w hostname)).
Qed.

(** X8. [status] and [apply], dry or not, never write a manifest, and
    [status] and [pull] run no command besides the three queries of the
    probe. *)
Theorem status_apply_read_only (w : World) (hostname : string) (dry_run : bool) :
  writes (trace (status w hostname)) = [] ∧
  writes (trace (apply w hostname dry_run)) = [] ∧
  runs (trace (status w hostname)) = [DNF_USERINSTALLED; DNF_GROUPS; FLATPAK_LIST] ∧
  runs (trace (pull w hostname)) = [DNF_USERINSTALLED; DNF_GROUPS; FLATPAK_LIST].
Proof.
  destruct (get_system_state_spec w) as (st & Hst & _).
  split_and!.
  - unfold status. rewrite (trace_bind_inr _ _ _ Hst), writes_app,
      writes_get_system_state.
    apply writes_no_write, Stdout_is_Stdout_or_Run, status_on_prints_only.
  - destruct (apply_unfold w hostname dry_run) as (st' & _ & -> & _).
    rewrite writes_app, writes_get_system_state.
    apply writes_no_write, apply_on_events.
  - unfold status. rewrite (trace_bind_inr _ _ _ Hst), runs_app,
      runs_get_system_state.
    by rewrite (runs_all_Stdout _ (status_on_prints_only _ _ _)).
  - destruct (pull_unfold w hostname) as (st' & M' & _ & _ & -> & _).
    rewrite !runs_app, runs_get_system_state.
    rewrite (runs_all_Stdout _ (pull_on_trace _ _)).
    unfold save_manifest. by destruct (tbl_meta M').
Qed.

(** ** A host that has no manifest yet *)

Lemma printed_get_system_state (w : World) : printed (trace (get_system_state w)) = [].
Proof.
  destruct (get_system_state_spec w) as (st & _ & -> & _).
  by destruct (exec w DNF_USERINSTALLED) as [|[] ?].
Qed.

Lemma apply_on_nothing (w : World) (M : Manifest) (S : SystemState) (dry_run : bool) :
  apply_missing M S = ∅ → apply_missing_flatpaks M S = ∅ →
  apply_on w M S dry_run = mkEff [Stdout "✓ Nothing to install"] (inr tt).
Proof. intros Hm Hf. unfold apply_on. by rewrite Hm, Hf. Qed.

(** X9. On a host without a manifest file, nothing is declared: [status]
    finds nothing missing, counts every observed package as extra and
    exits with 0, and [apply], dry or not, prints that there is nothing to
    install and runs only the queries of the probe. *)
Theorem unmanaged_host_has_nothing_missing (w : World) (hostname : string)
    (dry_run : bool) :
  manifest_files w !! hostname = None →
  ∃ st, result (get_system_state w) = inr st ∧
        status_missing (load_manifest w hostname) st = ∅ ∧
        status_extra (load_manifest w hostname) st = packages st ∧
        result (status w hostname) = inr 0%Z ∧
        printed (trace (apply w hostname dry_run)) = ["✓ Nothing to install"] ∧
        runs (trace (apply w hostname dry_run))
          = [DNF_USERINSTALLED; DNF_GROUPS; FLATPAK_LIST] ∧
        result (apply w hostname dry_run) = inr tt.
Proof.
  intros Hnone.
  assert (load_manifest w hostname = template w hostname) as Hload.
  { unfold load_manifest. by rewrite Hnone. }
  destruct (apply_unfold w hostname dry_run) as (st & Hst & Htr & Hres).
  exists st. rewrite Htr, Hres, Hload.
  assert (status_missing (template w hostname) st = ∅) as Hm.
  { unfold status_missing, status_declared_pkgs, set_of. cbn. set_solver. }
  assert (status_missing_flatpaks (template w hostname) st = ∅) as Hmf.
  { unfold status_missing_flatpaks, status_declared_flatpaks, set_of. cbn. set_solver. }
  rewrite (apply_on_nothing w (template w hostname) st dry_run).
  - split_and!; try done.
    + unfold status_extra, status_declared_pkgs, status_excluded, set_of. cbn.
      set_solver.
    + unfold status. rewrite (result_bind_inr _ _ _ Hst), Hload, status_on_result.
      by rewrite Hm, Hmf.
    + by rewrite printed_app, printed_get_system_state.
    + by rewrite runs_app, runs_get_system_state.
  - unfold apply_missing, set_of. cbn. set_solver.
  - unfold apply_missing_flatpaks, set_of. cbn. set_solver.
Qed.

Lemma unmanaged_host_has_nothing_missing_witness :
  result (status fedora_host "fedora") = inr 0%Z ∧
  printed (trace (apply fedora_host "fedora" false)) = ["✓ Nothing to install"].
Proof.
  destruct (unmanaged_host_has_nothing_missing fedora_host "fedora" false)
    as (st & _ & _ & _ & Hs & Hp & _).
  - reflexivity.
  - by split.
Defined.

(** X10. The first [pull] on a host without a manifest file writes one
    document for that host: its optional list is the sorted list of the
    observed packages, its flatpak list the sorted list of the observed
    flatpaks, its system and excluded lists are empty, and its [meta]
    table names the host. *)
Theorem pull_creates_manifest (w : World) (hostname : string) :
  manifest_files w !! hostname = None →
  ∃ st doc, result (get_system_state w) = inr st ∧
            writes (trace (pull w hostname)) = [(manifest_path w hostname, doc)] ∧
            result (pull w hostname) = inr tt ∧
            get_system doc = [] ∧
            get_optional doc = sorted (packages st) ∧
            get_flatpak_packages doc = sorted (flatpaks st) ∧
            get_excluded_packages doc = [] ∧
            (tbl_meta doc ≫= lookup "hostname") = Some hostname ∧
            (tbl_meta doc ≫= lookup "updated") = Some (utc_now w).
Proof.
  intros Hnone.
  assert (load_manifest w hostname = template w hostname) as Hload.
  { unfold load_manifest. by rewrite Hnone. }
  destruct (pull_unfold w hostname) as (st & M' & Hst & HM' & Htr & Hres).
  rewrite Hload in HM', Htr.
  assert (pull_new_packages (template w hostname) st = packages st) as Hp.
  { unfold pull_new_packages.
    change (get_system (template w hostname)) with (@nil string).
    change (get_optional (template w hostname)) with (@nil string).
    change (get_excluded_packages (template w hostname)) with (@nil string).
    change (set_of []) with (∅ : idset).
    by rewrite union_empty_r_L, !difference_empty_L. }
  assert (pull_new_flatpaks (template w hostname) st = flatpaks st) as Hf.
  { unfold pull_new_flatpaks.
    change (get_flatpak_packages (template w hostname)) with (@nil string).
    change (set_of []) with (∅ : idset).
    by rewrite difference_empty_L. }
  assert (get_system M' = [] ∧ get_optional M' = sorted (packages st) ∧
          get_flatpak_packages M' = sorted (flatpaks st) ∧
          get_excluded_packages M' = [] ∧
          tbl_meta M' = tbl_meta (template w hostname)) as (Hs' & Ho' & Hf' & He' & Hm').
  { rewrite pull_on_result in HM'. injection HM' as <-. rewrite Hp, Hf.
    assert (set_of (get_optional (template w hostname)) = ∅) as -> by done.
    assert (set_of (get_flatpak_packages (template w hostname)) = ∅) as -> by done.
    rewrite !union_empty_l_L.
    destruct (truthy (packages st)) eqn:Ep, (truthy (flatpaks st)) eqn:Ef;
      cbv zeta;
      first [apply truthy_false in Ep; rewrite ?Ep, ?sorted_empty | idtac];
      first [apply truthy_false in Ef; rewrite ?Ef, ?sorted_empty | idtac];
      split_and!; reflexivity. }
  assert (∃ meta, tbl_meta M' = Some meta ∧ meta !! "hostname" = Some hostname)
    as (meta & Hmeta & Hhost).
  { rewrite Hm'. eexists. split; [reflexivity|]. by rewrite lookup_insert_eq. }
  exists st,
    (mkManifest (Some (<["updated" := utc_now w]> meta)) (tbl_packages M')
       (tbl_flatpak M') (tbl_copr M') (tbl_excluded M')).
  split; [done|].
  rewrite Htr, Hres, !writes_app, writes_get_system_state.
  rewrite (writes_no_write (trace (pull_on _ _)))
    by apply Stdout_is_Stdout_or_Run, pull_on_trace.
  unfold save_manifest. rewrite Hmeta.
  split_and!; try done.
  - cbn [tbl_meta mbind option_bind]. by rewrite lookup_insert_ne.
  - cbn [tbl_meta mbind option_bind]. by rewrite lookup_insert_eq.
Qed.

Lemma pull_creates_manifest_witness :
  ∃ doc, writes (trace (pull fedora_host "fedora")) = [("/manifests/fedora.toml", doc)] ∧
         get_optional doc = ["git"; "htop"] ∧
         get_flatpak_packages doc = ["org.mozilla.firefox"].
Proof.
  destruct (pull_creates_manifest fedora_host "fedora")
    as (st & doc & Hst & Hw & _ & _ & Ho & Hf & _).
  - reflexivity.
  - exists doc. split; [exact Hw|].
    assert (result (get_system_state fedora_host)
            = inr (mkSystemState {[ "git"; "htop" ]} {[ "development-tools" ]}
                     {[ "org.mozilla.firefox" ]}
                     {[ "copr.fedorainfracloud.org:atim:starship"; "user-tool" ]}))
      as Hst' by (vm_compute; reflexivity).
    rewrite Hst' in Hst. injection Hst as <-.
    split; [rewrite Ho | rewrite Hf]; vm_compute; reflexivity.
Defined.

(** ** [apply] stops at the first installer that fails *)

(** The exception that a checked command raises when it does not succeed. *)
Lemma install_call_fails (w : World) (cmd : list string) :
  ¬ succeeds w cmd →
  (subprocess_run w cmd true ;; mret tt) =
    mkEff [Run cmd]
      (inl match exec w cmd with
           | NotFound => FileNotFoundError cmd
           | Exited rc _ => CalledProcessError rc cmd
           end).
Proof.
  intros Hfail. rewrite install_call.
  destruct (exec w cmd) as [|rc out] eqn:E; [done|].
  destruct (rc =? 0)%Z eqn:Hrc; [|done].
  exfalso. apply Hfail. exists out. rewrite E. f_equal. by apply Z.eqb_eq.
Qed.

Lemma install_loop_fails (w : World) (f : string → list string)
    (l1 l2 : list string) (x : string) :
  (∀ y, y ∈ l1 → succeeds w (f y)) → ¬ succeeds w (f x) →
  for_each (l1 ++ x :: l2) (λ y, subprocess_run w (f y) true ;; mret tt)
    = mkEff (Run ∘ f <$> l1 ++ [x])
        (inl match exec w (f x) with
             | NotFound => FileNotFoundError (f x)
             | Exited rc _ => CalledProcessError rc (f x)
             end).
Proof.
  intros Hok Hfail. induction l1 as [|y l1 IH].
  - simpl app. rewrite for_each_cons, install_call_fails by done. reflexivity.
  - simpl app. rewrite for_each_cons, install_call_ok by (apply Hok; left).
    rewrite IH by (intros; apply Hok; by right). reflexivity.
Qed.

(** X11. When packages are missing and the batched [dnf install] cannot
    be run or exits with a non-zero status, [apply] ends with the
    exception of that call: the call is the only command run and no
    flatpak is installed, however many are missing. *)
Theorem apply_stops_when_dnf_fails (w : World) (M : Manifest) (S : SystemState) :
  apply_missing M S ≠ ∅ →
  ¬ succeeds w (["sudo"; "dnf"; "install"; "-y"] ++ sorted (apply_missing M S)) →
  runs (trace (apply_on w M S false))
    = [["sudo"; "dnf"; "install"; "-y"] ++ sorted (apply_missing M S)] ∧
  result (apply_on w M S false)
    = inl match exec w (["sudo"; "dnf"; "install"; "-y"] ++ sorted (apply_missing M S)) with
          | NotFound =>
              FileNotFoundError
                (["sudo"; "dnf"; "install"; "-y"] ++ sorted (apply_missing M S))
          | Exited rc _ =>
              CalledProcessError rc
                (["sudo"; "dnf"; "install"; "-y"] ++ sorted (apply_missing M S))
          end.
Proof.
  intros Hm%truthy_true Hfail. rewrite apply_on_real_eq. cbv zeta.
  rewrite Hm, install_call_fails by done. cbn [negb andb trace result].
  split; [|done]. by trace_simpl.
Qed.

Lemma apply_stops_when_dnf_fails_witness :
  apply_on broken_installers workstation only_git false
    = mkEff [Stdout "Installing 1 DNF packages:"; Stdout "  vim";
             Run ["sudo"; "dnf"; "install"; "-y"; "vim"]]
        (inl (CalledProcessError 1 ["sudo"; "dnf"; "install"; "-y"; "vim"])) ∧
  runs (trace (apply_on broken_installers workstation only_git false))
    = [["sudo"; "dnf"; "install"; "-y"; "vim"]].
Proof.
  split; [vm_compute; reflexivity|].
  destruct (apply_stops_when_dnf_fails broken_installers workstation only_git)
    as [Hr _].
  - vm_compute. discriminate.
  - intros [out Hout]. vm_compute in Hout. discriminate.
  - rewrite Hr. vm_compute. reflexivity.
Defined.

(** X12. When the installation of a missing flatpak fails after the
    batched call and the flatpaks before it succeeded, [apply] ends with
    the exception of that call: the flatpaks before it, in sorted order,
    have been installed one by one, and none after it is attempted. *)
Theorem apply_stops_at_failing_flatpak (w : World) (M : Manifest)
    (S : SystemState) (before after : list string) (x : string) :
  sorted (apply_missing_flatpaks M S) = before ++ x :: after →
  (apply_missing M S ≠ ∅ →
   succeeds w (["sudo"; "dnf"; "install"; "-y"] ++ sorted (apply_missing M S))) →
  (∀ y, y ∈ before → succeeds w ["flatpak"; "install"; "-y"; y]) →
  ¬ succeeds w ["flatpak"; "install"; "-y"; x] →
  runs (trace (apply_on w M S false))
    = (if bool_decide (apply_missing M S ≠ ∅)
       then [["sudo"; "dnf"; "install"; "-y"] ++ sorted (apply_missing M S)] else [])
      ++ ((λ f, ["flatpak"; "install"; "-y"; f]) <$> before)
      ++ [["flatpak"; "install"; "-y"; x]] ∧
  result (apply_on w M S false)
    = inl match exec w ["flatpak"; "install"; "-y"; x] with
          | NotFound => FileNotFoundError ["flatpak"; "install"; "-y"; x]
          | Exited rc _ => CalledProcessError rc ["flatpak"; "install"; "-y"; x]
          end.
Proof.
  intros Hsplit Hdnf Hbefore Hfail. rewrite apply_on_real_eq. cbv zeta.
  assert (truthy (apply_missing_flatpaks M S) = true) as Hf.
  { apply truthy_true. intros He%sorted_nil_iff. rewrite He in Hsplit.
    by destruct before. }
  rewrite Hf, Hsplit, andb_false_r.
  rewrite (install_loop_fails w (λ f, ["flatpak"; "install"; "-y"; f])) by done.
  rewrite <- truthy_bool_decide.
  destruct (truthy (apply_missing M S)) eqn:Hm.
  - rewrite install_call_ok by (apply Hdnf; by apply truthy_true).
    cbn [trace result]. split; [|done]. trace_simpl.
    by rewrite ?fmap_app.
  - cbn [trace result]. split; [|done]. trace_simpl.
    by rewrite ?fmap_app.
Qed.

Lemma apply_stops_at_failing_flatpak_witness :
  runs (trace (apply_on one_flatpak_fails workstation only_git false))
    = [["sudo"; "dnf"; "install"; "-y"; "vim"];
       ["flatpak"; "install"; "-y"; "org.a.A"]] ∧
  result (apply_on one_flatpak_fails workstation only_git false)
    = inl (CalledProcessError 1 ["flatpak"; "install"; "-y"; "org.a.A"]).
Proof.
  destruct (apply_stops_at_failing_flatpak one_flatpak_fails workstation only_git
              [] ["org.b.B"] "org.a.A") as [Hr He].
  - vm_compute. reflexivity.
  - intros _. exists "". reflexivity.
  - intros y Hy. by apply elem_of_nil in Hy.
  - intros [out Hout]. vm_compute in Hout. discriminate.
  - split; [rewrite Hr | rewrite He]; vm_compute; reflexivity.
Defined.

(** ** [status] and [apply] *)

(** X13. Whenever [status] exits with 0, [apply] has nothing to install:
    it prints that and runs no command. The converse fails, because a
    missing optional package makes [status] exit with 1 and is not
    installed by [apply]. *)
Theorem status_ok_apply_idle (w : World) (hostname : string) (M : Manifest)
    (S : SystemState) (dry_run : bool) :
  result (status_on hostname M S) = inr 0%Z →
  apply_on w M S dry_run = mkEff [Stdout "✓ Nothing to install"] (inr tt).
Proof.
  rewrite status_on_result. intros Hcode.
  destruct (truthy (status_missing M S)) eqn:Hm; [done|].
  destruct (truthy (status_missing_flatpaks M S)) eqn:Hf; [done|].
  apply truthy_false in Hm, Hf. apply apply_on_nothing.
  - unfold status_missing, status_declared_pkgs in Hm. unfold apply_missing.
    set_solver.
  - exact Hf.
Qed.

Lemma status_ok_apply_idle_witness :
  apply_on all_succeed (manifest_with ["git"] [] []) only_git false
    = mkEff [Stdout "✓ Nothing to install"] (inr tt).
Proof.
  apply (status_ok_apply_idle all_succeed "localhost"
           (manifest_with ["git"] [] []) only_git false).
  vm_compute. reflexivity.
Defined.

Example status_fails_apply_idle_example :
  result (status_on "localhost" workstation after_install) = inr 1%Z ∧
  apply_on all_succeed workstation after_install false
    = mkEff [Stdout "✓ Nothing to install"] (inr tt).
Proof. by vm_compute. Qed.

(** ** What the reports show *)

Lemma string_length_app (s t : string) :
  String.length (s +:+ t) = String.length s + String.length t.
Proof.
  induction s as [|c s IH]; [done|].
  change (String.length (String c (s +:+ t))
          = String.length (String c s) + String.length t).
  cbn [String.length]. by rewrite IH.
Qed.

Lemma string_app_inj_r (s1 s2 t : string) : s1 +:+ t = s2 +:+ t → s1 = s2.
Proof.
  revert s2. induction s1 as [|c s1 IH]; intros [|c2 s2] H.
  - done.
  - apply (f_equal String.length) in H.
    rewrite !string_length_app in H. cbn [String.length] in H. lia.
  - apply (f_equal String.length) in H.
    rewrite !string_length_app in H. cbn [String.length] in H. lia.
  - change (String c (s1 +:+ t) = String c2 (s2 +:+ t)) in H.
    injection H as -> H. f_equal. by apply IH.
Qed.

Lemma more_line_inj (n m : nat) :
  Stdout ("  ... and " +:+ pretty n +:+ " more")
    = Stdout ("  ... and " +:+ pretty m +:+ " more") → n = m.
Proof.
  intros [= H]. apply (inj (String.app "")) in H.
  apply string_app_inj_r in H. by apply (inj pretty) in H.
Qed.

Ltac nat_tests :=
  repeat match goal with
  | E : (_ <? _)%nat = true |- _ => apply Nat.ltb_lt in E
  | E : (_ <? _)%nat = false |- _ => apply Nat.ltb_ge in E
  end.

Lemma prefix_app_true (p s : string) : String.prefix p (p +:+ s) = true.
Proof.
  induction p as [|c p IH]; [by destruct s|].
  change (String.prefix (String c p) (String c (p +:+ s)) = true).
  cbn [String.prefix]. by destruct (ascii_dec c c).
Qed.

Lemma prefix_app_short (p q s : string) :
  String.length p ≤ String.length q →
  String.prefix p (q +:+ s) = String.prefix p q.
Proof.
  revert q. induction p as [|a p IH]; intros q Hlen.
  - destruct q; [|done]. by destruct ("" +:+ s).
  - destruct q as [|b q]; [cbn in Hlen; lia|].
    change (String b q +:+ s) with (String b (q +:+ s)).
    cbn [String.prefix]. destruct (ascii_dec a b); [|done].
    apply IH. cbn in Hlen. lia.
Qed.

Lemma extra_lines_app (t1 t2 : list event) :
  extra_lines (t1 ++ t2) = extra_lines t1 ++ extra_lines t2.
Proof. unfold extra_lines, printed. by rewrite omap_app, filter_app. Qed.

Lemma extra_lines_cons_other (s : string) (t : list event) :
  String.prefix "  + " s = false →
  extra_lines (Stdout s :: t) = extra_lines t.
Proof.
  intros H. unfold extra_lines.
  change (printed (Stdout s :: t)) with (s :: printed t).
  rewrite filter_cons_False; [done|]. by apply Is_true_false_2.
Qed.

Lemma extra_lines_plus (xs : list string) :
  extra_lines (Stdout ∘ (λ p, "  + " +:+ p) <$> xs) = (λ p, "  + " +:+ p) <$> xs.
Proof.
  induction xs as [|x xs IH]; [done|].
  unfold extra_lines in *.
  change (printed (Stdout ∘ (λ p, "  + " +:+ p) <$> x :: xs))
    with (("  + " +:+ x) :: printed (Stdout ∘ (λ p, "  + " +:+ p) <$> xs)).
  rewrite filter_cons_True; [|apply Is_true_true_2, prefix_app_true].
  cbn [fmap list_fmap]. f_equal. apply IH.
Qed.

Lemma extra_lines_minus (xs : list string) :
  extra_lines (Stdout ∘ (λ p, "  - " +:+ p) <$> xs) = [].
Proof.
  induction xs as [|x xs IH]; [done|].
  cbn [fmap list_fmap compose]. rewrite extra_lines_cons_other; [apply IH|].
  by rewrite prefix_app_short by (cbn; lia).
Qed.

Lemma length_sorted (X : idset) : length (sorted X) = size X.
Proof. apply (Permutation_length (sorted_Permutation _)). Qed.

Ltac extra_lines_simpl :=
  repeat first
    [ rewrite extra_lines_app
    | rewrite extra_lines_plus
    | rewrite extra_lines_minus
    | rewrite extra_lines_cons_other
        by (rewrite ?prefix_app_short by (cbn; lia); reflexivity)
    | change (extra_lines []) with (@nil string) ];
  cbn [app]; rewrite ?app_nil_r.

Lemma status_on_extra_lines (hostname : string) (M : Manifest) (S : SystemState) :
  extra_lines (trace (status_on hostname M S)) =
    ((λ p, "  + " +:+ p) <$> take 30 (sorted (status_extra M S))) ++
    ((λ p, "  + " +:+ p) <$> sorted (status_extra_flatpaks M S)).
Proof.
  rewrite status_on_trace.
  destruct (truthy (status_missing M S)),
    (truthy (status_missing_flatpaks M S)),
    (30 <? size (status_extra M S))%nat,
    (truthy (status_extra M S)) eqn:He,
    (truthy (status_extra_flatpaks M S)) eqn:Hf;
    try (apply truthy_false, sorted_nil_iff in He; rewrite He);
    try (apply truthy_false, sorted_nil_iff in Hf; rewrite Hf);
    cbn [negb andb]; extra_lines_simpl; reflexivity.
Qed.

(** X14. The report of [status] lists the first thirty extra packages in
    sorted order and every extra flatpak, one [  + name] line each, so at
    most thirty extra packages are listed. A closing line with the number
    of packages left out is printed exactly when there are more than
    thirty, and that number is the size of the extra set less thirty. *)
Theorem status_truncates_extra (hostname : string) (M : Manifest)
    (S : SystemState) :
  extra_lines (trace (status_on hostname M S)) =
    ((λ p, "  + " +:+ p) <$> take 30 (sorted (status_extra M S))) ++
    ((λ p, "  + " +:+ p) <$> sorted (status_extra_flatpaks M S)) ∧
  length (extra_lines (trace (status_on hostname M S))) =
    size (status_extra M S) `min` 30 + size (status_extra_flatpaks M S) ∧
  ∀ n, Stdout ("  ... and " +:+ pretty n +:+ " more") ∈ trace (status_on hostname M S)
       ↔ 30 < size (status_extra M S) ∧ n = size (status_extra M S) - 30.
Proof.
  split; [apply status_on_extra_lines|]. split.
  { rewrite status_on_extra_lines, length_app, !length_fmap, length_take,
      !length_sorted. lia. }
  intros n. rewrite status_on_trace. split.
  - intros H. line_cases H. apply more_line_inj in H. nat_tests. by split.
  - intros [Hlt ->].
    assert (truthy (status_extra M S) = true) as ->.
    { apply truthy_true. intros He. rewrite He, size_empty in Hlt. lia. }
    apply Nat.ltb_lt in Hlt. rewrite Hlt.
    do 2 (apply elem_of_app; right). apply elem_of_app. left.
    apply elem_of_cons. right. apply elem_of_app. right.
    apply elem_of_app. left. by left.
Qed.

Lemma status_truncates_extra_witness :
  Stdout "  ... and 10 more"
    ∈ trace (status_on "localhost" (manifest_with [] [] []) forty_packages) ∧
  length (extra_lines
            (trace (status_on "localhost" (manifest_with [] [] []) forty_packages)))
    = 30.
Proof.
  destruct (status_truncates_extra "localhost" (manifest_with [] [] []) forty_packages)
    as (_ & Hlen & H).
  split.
  - apply (H 10). vm_compute. split; [lia|reflexivity].
  - rewrite Hlen. vm_compute. reflexivity.
Defined.

(** X15. [status] prints that the system matches the manifest exactly
    when no package is missing, no package is extra and no flatpak is
    missing; flatpaks that are installed and not declared do not prevent
    the line. *)
Theorem status_match_line (hostname : string) (M : Manifest) (S : SystemState) :
  Stdout "✓ System matches manifest" ∈ trace (status_on hostname M S) ↔
  status_missing M S = ∅ ∧ status_extra M S = ∅ ∧ status_missing_flatpaks M S = ∅.
Proof.
  rewrite status_on_trace. split.
  - intros H. line_cases H.
    repeat match goal with
    | E : _ && _ = true |- _ => apply andb_prop in E; destruct E
    | E : negb _ = true |- _ => apply negb_true_iff, truthy_false in E
    end. done.
  - intros (-> & -> & ->).
    do 5 (apply elem_of_app; right). by left.
Qed.

Lemma pull_on_trace_eq (M : Manifest) (S : SystemState) :
  trace (pull_on M S) =
    (if truthy (pull_new_packages M S) then
       Stdout ("Adding " +:+ pretty (size (pull_new_packages M S))
               +:+ " new packages to optional:")
       :: (Stdout ∘ (λ p, "  + " +:+ p) <$> take 15 (sorted (pull_new_packages M S))) ++
          (if (15 <? size (pull_new_packages M S))%nat
           then [Stdout ("  ... and " +:+ pretty (size (pull_new_packages M S) - 15)%nat
                         +:+ " more")]
           else [])
     else []) ++
    (if truthy (pull_new_flatpaks M S) then
       Stdout ("Adding " +:+ pretty (size (pull_new_flatpaks M S)) +:+ " new flatpaks:")
       :: (Stdout ∘ (λ p, "  + " +:+ p) <$> sorted (pull_new_flatpaks M S))
     else []).
Proof.
  unfold pull_on. rewrite !for_each_print.
  destruct (truthy (pull_new_packages M S)),
    (15 <? size (pull_new_packages M S))%nat; cbn -[sorted for_each];
    rewrite ?for_each_print;
    change (pull_new_flatpaks (set_optional _ M) S) with (pull_new_flatpaks M S);
    destruct (truthy (pull_new_flatpaks M S)); cbn -[sorted];
    rewrite ?app_nil_r, <- ?app_assoc; reflexivity.
Qed.

(** X16. [pull] announces the new identifiers under a plus: all new
    flatpaks, and of the new packages the first fifteen in sorted order,
    although all of them are added. A closing line with the number of
    packages left out is printed exactly when more than fifteen are new. *)
Theorem pull_report_lines (M : Manifest) (S : SystemState) :
  (∀ x, Stdout ("  + " +:+ x) ∈ trace (pull_on M S) ↔
        x ∈ take 15 (sorted (pull_new_packages M S)) ∨ x ∈ pull_new_flatpaks M S) ∧
  (∀ n, Stdout ("  ... and " +:+ pretty n +:+ " more") ∈ trace (pull_on M S) ↔
        15 < size (pull_new_packages M S) ∧ n = size (pull_new_packages M S) - 15).
Proof.
  rewrite pull_on_trace_eq. split.
  - intros x. split.
    + intros H. line_cases H;
        injection H as H; apply (inj (String.app "")) in H; subst;
        [by left|right; by apply elem_of_sorted].
    + intros [Hx|Hx].
      * assert (truthy (pull_new_packages M S) = true) as ->.
        { apply truthy_true. apply (subseteq_take 15) in Hx.
          apply elem_of_sorted in Hx. set_solver. }
        apply elem_of_app. left. apply elem_of_cons. right.
        apply elem_of_app. left. apply elem_of_lines. by exists x.
      * assert (truthy (pull_new_flatpaks M S) = true) as ->.
        { apply truthy_true. set_solver. }
        apply elem_of_app. right. apply elem_of_cons. right.
        apply elem_of_lines. exists x. by rewrite elem_of_sorted.
  - intros n. split.
    + intros H. line_cases H. apply more_line_inj in H. nat_tests. by split.
    + intros [Hlt ->].
      assert (truthy (pull_new_packages M S) = true) as ->.
      { apply truthy_true. intros He. rewrite He, size_empty in Hlt. lia. }
      apply Nat.ltb_lt in Hlt. rewrite Hlt.
      apply elem_of_app. left. apply elem_of_cons. right.
      apply elem_of_app. right. by left.
Qed.

(** ** What the excluded list does and does not do *)

(** X17. The excluded list only hides extra packages. Replacing it
    changes neither the missing sets nor the exit code of [status] nor
    the run of [apply]: an excluded package that the manifest declares is
    still reported as missing and still installed. Excluding more can
    only shrink the set of extra packages. *)
Theorem excluded_only_hides_extra (w : World) (hostname : string)
    (M : Manifest) (S : SystemState) (excl : option ExcludedTable)
    (dry_run : bool) :
  let M' := mkManifest (tbl_meta M) (tbl_packages M) (tbl_flatpak M)
              (tbl_copr M) excl in
  status_missing M' S = status_missing M S ∧
  status_missing_flatpaks M' S = status_missing_flatpaks M S ∧
  result (status_on hostname M' S) = result (status_on hostname M S) ∧
  apply_on w M' S dry_run = apply_on w M S dry_run ∧
  (∀ x, x ∈ get_system M → x ∉ packages S → x ∈ apply_missing M' S) ∧
  (get_excluded_packages M ⊆ get_excluded_packages M' →
   status_extra M' S ⊆ status_extra M S).
Proof.
  intros M'. split_and!; try reflexivity.
  - by rewrite !status_on_result.
  - intros x Hx Hn. unfold apply_missing.
    apply elem_of_difference. split; [|done]. by apply elem_of_set_of.
  - intros Hsub x. unfold status_extra, status_excluded.
    rewrite !elem_of_difference, !elem_of_set_of.
    intros [[Hx Hd] He]. split_and!; [done|done|]. intros Hin. apply He, Hsub, Hin.
Qed.

(** ** Groups and repositories are probed and never compared *)










(** X19. Every group name in a snapshot is a fixed point of the
    normalisation: lower-casing it and replacing its spaces by hyphens
    gives the name back. *)
Theorem probe_groups_fixed_point (w : World) :
  ∃ st, result (get_system_state w) = inr st ∧
        ∀ g, g ∈ groups st → Str.replace (Str.lower g) " " "-" = g.
Proof.
  assert (∀ s, all_chars group_char s = true →
               Str.replace (Str.lower s) " " "-" = s) as Hfix.
  { induction s as [|c s IH]; [done|]. cbn [all_chars Str.lower].
    intros [Hc Hs]%andb_prop. rewrite replace_char_cons, (IH Hs).
    unfold group_char in Hc. apply andb_prop in Hc as [Hsp Hup].
    apply negb_true_iff in Hsp, Hup.
    assert (Str.lower_char c = c) as ->.
    { unfold Str.lower_char. unfold is_upper in Hup. by rewrite Hup. }
    by rewrite Ascii.eqb_sym, Hsp. }
  destruct (get_system_state_spec w) as (st & Hst & _ & _ & Hg & _).
  exists st. split; [done|]. rewrite Hg.
  destruct (exec w DNF_GROUPS) as [|rc out]; [set_solver|].
  apply groups_foldl_invariant; [|set_solver].
  intros line Hne. apply Hfix, replace_space_hyphen, lower_all_not_upper.
Qed.

(** ** The three commands agree on drift *)

(** X20. [pull] adds exactly what [status] reports as extra, packages
    and flatpaks alike; [apply] installs exactly the flatpaks that
    [status] reports as missing and, of the missing packages, those of
    the system list: the missing packages that [apply] leaves alone are
    the optional ones that the system list does not name. *)
Theorem commands_agree_on_drift (M : Manifest) (S : SystemState) :
  pull_new_packages M S = status_extra M S ∧
  pull_new_flatpaks M S = status_extra_flatpaks M S ∧
  apply_missing_flatpaks M S = status_missing_flatpaks M S ∧
  apply_missing M S ⊆ status_missing M S ∧
  (∀ x, x ∈ status_missing M S ∖ apply_missing M S ↔
        x ∈ get_optional M ∧ (x ∉ get_system M) ∧ (x ∉ packages S)).
Proof.
  split_and!; try reflexivity.
  - unfold apply_missing, status_missing, status_declared_pkgs. set_solver.
  - intros x. unfold apply_missing, status_missing, status_declared_pkgs.
    rewrite !elem_of_difference, elem_of_union, !elem_of_set_of. tauto.
Qed.

(** X21. In the drift report no identifier is both missing and extra; a
    missing package is not observed, and an extra package is observed,
    not declared and not excluded. *)
Theorem status_drift_invariants (M : Manifest) (S : SystemState) :
  status_missing M S ∩ status_extra M S = ∅ ∧
  status_missing_flatpaks M S ∩ status_extra_flatpaks M S = ∅ ∧
  status_missing M S ∩ packages S = ∅ ∧
  status_extra M S ⊆ packages S ∧
  status_extra M S ∩ set_of (get_excluded_packages M) = ∅ ∧
  status_extra M S ∩ (set_of (get_system M) ∪ set_of (get_optional M)) = ∅.
Proof.
  unfold status_missing, status_extra, status_missing_flatpaks,
    status_extra_flatpaks, status_declared_pkgs, status_excluded.
  split_and!; set_solver.
Qed.

(** ** Exit codes *)

(** X22. When [main] ends without an exception its exit code is 0, or 1
    for [status]: [pull], [apply] and [diff] never report drift through
    the exit code. *)
Theorem main_exit_codes (w : World) (cmd : command) (host : option string)
    (code : Z) :
  result (main w cmd host) = inr code →
  code = 0%Z ∨ (cmd = CmdStatus ∧ code = 1%Z).
Proof.
  destruct cmd; unfold main; cbv zeta.
  - destruct (get_system_state_spec w) as (st & Hst & _).
    unfold status. rewrite (result_bind_inr _ _ _ Hst), status_on_result.
    intros [= <-]. case_match; auto.
  - rewrite result_bind. destruct (result (pull w _)) as [e|[]]; [done|].
    intros [= <-]. by left.
  - rewrite result_bind. destruct (result (apply w _ _)) as [e|[]]; [done|].
    intros [= <-]. by left.
  - rewrite result_bind. destruct (result (apply w _ _)) as [e|[]]; [done|].
    intros [= <-]. by left.
Qed.

Lemma main_exit_codes_witness :
  (0 = 0 ∨ CmdStatus = CmdStatus ∧ 0 = 1)%Z.
Proof.
  apply (main_exit_codes fedora_host CmdStatus None 0%Z).
  vm_compute. reflexivity.
Defined.

(** ** Repository files *)

Lemma replace_absent (s old new : string) :
  contains old s = false → Str.replace s old new = s.
Proof.
  unfold Str.replace. induction s as [|c s IH]; [done|].
  cbn [contains]. intros [Hp Hc]%orb_false_elim.
  cbn [Str.replace_from]. rewrite Hp. f_equal. by apply IH.
Qed.

Lemma substring_0_app (s t : string) :
  String.substring 0 (String.length s) (s +:+ t) = s.
Proof.
  induction s as [|c s IH]; [by destruct t|].
  change (String.substring 0 (Datatypes.S (String.length s)) (String c (s +:+ t))
          = String c s).
  cbn [String.substring]. by rewrite IH.
Qed.

Lemma string_app_assoc (a b c : string) : a +:+ (b +:+ c) = (a +:+ b) +:+ c.
Proof.
  induction a as [|x a IH]; [done|].
  change (String x (a +:+ (b +:+ c)) = String x ((a +:+ b) +:+ c)).
  by rewrite IH.
Qed.

Lemma drop_last_app (s t : string) :
  Str.drop_last (String.length t) (s +:+ t) = s.
Proof.
  unfold Str.drop_last. rewrite string_length_app.
  replace (String.length s + String.length t - String.length t)
    with (String.length s) by lia.
  apply substring_0_app.
Qed.

Lemma rev_app_app (s t acc : string) :
  String.rev_app (s +:+ t) acc = String.rev_app t (String.rev_app s acc).
Proof. revert acc. induction s as [|c s IH]; intros acc; [done|]. cbn. apply IH. Qed.

Lemma replace_from_skip (old new t s : string) :
  Str.replace_from old new (String.length t) (t +:+ s)
    = Str.replace_from old new 0 s.
Proof.
  induction t as [|c t IH]; [done|].
  change (Str.replace_from old new (Datatypes.S (String.length t))
            (String c (t +:+ s)) = Str.replace_from old new 0 s).
  cbn [Str.replace_from]. exact IH.
Qed.

(** A leading occurrence is replaced, and the rest is treated alike. *)
Lemma replace_prefix (c : ascii) (old new s : string) :
  Str.replace (String c old +:+ s) (String c old) new
    = new +:+ Str.replace s (String c old) new.
Proof.
  unfold Str.replace.
  change (String c old +:+ s) with (String c (old +:+ s)).
  cbn [Str.replace_from].
  change (String c (old +:+ s)) with (String c old +:+ s).
  rewrite prefix_app_true.
  change (String.length (String c old) - 1) with (String.length old - 0).
  by rewrite Nat.sub_0_r, replace_from_skip.
Qed.

Lemma copr_repos_foldl (fs : list string) (st : SystemState) :
  copr_repos (foldl add_copr_file st fs)
    = list_to_set
        ((λ f, Str.replace (Str.replace (stem f) "_copr:" "") "_copr_" "") <$> fs)
      ∪ copr_repos st.
Proof.
  revert st. induction fs as [|f fs IH]; intros st.
  - cbn. set_solver.
  - cbn [foldl fmap list_fmap list_to_set]. rewrite IH.
    unfold add_copr_file. cbn [copr_repos set_copr_repos]. set_solver.
Qed.

(** X23. A repository file [_copr:<name>.repo] in the repository
    directory is observed under [<name>], prefix and suffix removed,
    whenever the name itself contains neither [_copr:] nor [_copr_]. *)
Theorem copr_repo_observed (w : World) (entries : list string) (name : string) :
  yum_repos_d w = Some entries →
  ("_copr:" +:+ name +:+ ".repo") ∈ entries →
  contains "_copr:" name = false →
  contains "_copr_" name = false →
  ∃ st, result (get_system_state w) = inr st ∧ name ∈ copr_repos st.
Proof.
  intros Hdir Hin Hc1 Hc2.
  destruct (get_system_state_spec w) as (st & Hst & _ & _ & _ & _ & Hrepos).
  exists st. split; [done|]. rewrite Hrepos, Hdir, copr_repos_foldl.
  apply elem_of_union. left. apply elem_of_list_to_set, list_elem_of_fmap.
  exists ("_copr:" +:+ name +:+ ".repo"). split.
  - unfold stem. change 5 with (String.length ".repo").
    rewrite string_app_assoc, drop_last_app, replace_prefix.
    change ("" +:+ Str.replace name "_copr:" "") with (Str.replace name "_copr:" "").
    by rewrite (replace_absent name "_copr:"), (replace_absent name "_copr_").
  - apply list_elem_of_filter. split; [|done].
    unfold copr_glob, Str.startswith, Str.endswith, String.rev.
    apply Is_true_true. apply andb_true_iff. split.
    + change ("_copr:" +:+ name +:+ ".repo")
        with ("_copr" +:+ (String ":" (name +:+ ".repo"))).
      apply prefix_app_true.
    + rewrite !rev_app_app.
      change (String.rev_app ".repo" ?x) with ("oper." +:+ x).
      apply prefix_app_true.
Qed.

Lemma copr_repo_observed_witness :
  ∃ st, result (get_system_state fedora_host) = inr st ∧
        "copr.fedorainfracloud.org:atim:starship" ∈ copr_repos st.
Proof.
  apply (copr_repo_observed fedora_host
           ["_copr:copr.fedorainfracloud.org:atim:starship.repo";
            "fedora.repo"; "_copr_user-tool.repo"]).
  - reflexivity.
  - by left.
  - vm_compute. reflexivity.
  - vm_compute. reflexivity.
Defined.
